(** * Intraday analysis core: signal filter, analysis pipeline, trading scheduler

  A shallow embedding of
    - [src/core/signal_filter.py]     (module [SignalFilter])
    - [src/core/intraday_pipeline.py] (module [IntradayAnalysisPipeline])
    - [src/intraday_scheduler.py]     (module [IntradayScheduler])
  followed by the properties established about them.

  Conventions.
    - A Python call that may raise is a value of [outcome]; [try_except]
      is the [try: ... except Exception: ...] block.
    - Mutation of [self] is explicit state passing; what a method does
      besides returning (log lines, dictionary stores, calls to the
      collaborators) is collected in a trace.
    - [datetime.now()] is an argument: the reading the clock gave at that
      place of the code.
    - Python [float] is IEEE binary64, i.e. Rocq's primitive [float];
      Python [int] is [Z]. *)

From Stdlib Require Import ZArith QArith Floats.
From stdpp Require Import gmap strings list.

Set Warnings "-inexact-float".
#[local] Open Scope Z_scope.

(* ===================================================================== *)
(** * The Python runtime, as far as the three files use it *)
(* ===================================================================== *)

Module Py.

(** An exception of class [Exception], the class that the
    [except Exception] handlers of the sources catch.  Only its type name
    and message are kept. *)
Record exn : Type := Exception { exn_type : string; exn_msg : string }.

(** The result of evaluating a call. *)
Inductive outcome (A : Type) : Type :=
| Returns (a : A)
| Raises (e : exn).
Arguments Returns {A} a.
Arguments Raises {A} e.

Definition bind {A B} (m : outcome A) (k : A -> outcome B) : outcome B :=
  match m with
  | Returns a => k a
  | Raises e => Raises e
  end.

Notation "'call' x ':=' m 'in' k" := (bind m (fun x => k))
  (at level 10, x name, m at level 100, k at level 200).

(** [try: body  except Exception as e: handler e] *)
Definition try_except {A} (body : outcome A) (handler : exn -> outcome A)
  : outcome A :=
  match body with
  | Returns a => Returns a
  | Raises e => handler e
  end.

(** A naive [datetime]: microseconds elapsed since 0001-01-01T00:00:00
    (the first instant of proleptic ordinal day 1). *)
Definition datetime : Type := Z.
(** A [timedelta], in microseconds. *)
Definition timedelta : Type := Z.
(** A [date]: its proleptic Gregorian ordinal, [date.toordinal()]. *)
Definition date : Type := Z.

Definition us_per_second : Z := 1000000.
Definition us_per_day : Z := 86400 * us_per_second.

(** [a - b] on datetimes. *)
Definition datetime_sub (a b : datetime) : timedelta := a - b.

(** [timedelta.total_seconds()]: the microseconds divided by 10^6.  The
    quotient is kept exact; the comparisons of the sources are against
    integers of ordinary size, where rounding the quotient to binary64
    does not change their result. *)
Definition total_seconds (d : timedelta) : Q := Qmake d 1000000.

(** [x < y] on exact quotients. *)
Definition Qltb (x y : Q) : bool := negb (Qle_bool y x).

(** [datetime.date()] *)
Definition date_of (t : datetime) : date := t / us_per_day + 1.

(** [date.weekday()]: Monday is 0 and Sunday is 6;
    CPython computes [(toordinal() + 6) % 7]. *)
Definition date_weekday (d : date) : Z := (d + 6) mod 7.

(** [datetime.weekday()] *)
Definition weekday (t : datetime) : Z := date_weekday (date_of t).

(** [datetime.minute] *)
Definition minute (t : datetime) : Z := (t / (60 * us_per_second)) mod 60.

(** Truth value of a float: [x != 0.0] (so NaN is true, -0.0 is false). *)
Definition float_truthy (x : float) : bool := negb (PrimFloat.eqb x 0%float).

(** [a > b] on floats. *)
Definition float_gt (a b : float) : bool := PrimFloat.ltb b a.
(** [a < b] on floats. *)
Definition float_lt (a b : float) : bool := PrimFloat.ltb a b.

(** [time.sleep(secs)]: raises [ValueError] on a negative or NaN length. *)
Definition time_sleep (secs : float) : outcome unit :=
  if PrimFloat.ltb secs 0%float || PrimFloat.is_nan secs
  then Raises (Exception "ValueError" "sleep length must be non-negative")
  else Returns tt.

(** [concurrent.futures.ThreadPoolExecutor(max_workers=n)]: the constructor
    raises [ValueError] unless the width is positive. *)
Definition ThreadPoolExecutor (max_workers : Z) : outcome unit :=
  if max_workers <=? 0
  then Raises (Exception "ValueError" "max_workers must be greater than 0")
  else Returns tt.

End Py.
Import Py.

(* ===================================================================== *)
(** * [src.stock_analyzer]: the enumerations the filter imports *)
(* ===================================================================== *)

Module StockAnalyzer.

(** Modelled from the spec: the enumeration [BuySignal] of
    [src/stock_analyzer.py], which is not among the sources.  The spec's
    signal classifications are strongest-buy, buy, hold, sell,
    strongest-sell and wait; the members are named as the filter refers to
    them. *)
Inductive BuySignal : Type :=
| STRONG_BUY | BUY | HOLD | WAIT | SELL | STRONG_SELL.

(** [signal.name] *)
Definition BuySignal_name (s : BuySignal) : string :=
  match s with
  | STRONG_BUY => "STRONG_BUY"
  | BUY => "BUY"
  | HOLD => "HOLD"
  | WAIT => "WAIT"
  | SELL => "SELL"
  | STRONG_SELL => "STRONG_SELL"
  end.

(** Modelled from the spec: the enumeration [TrendStatus] of
    [src/stock_analyzer.py].  The filter only tells [CONSOLIDATION] from
    the rest; [BULL] is the member its self-test uses, every other member
    is [OTHER_TREND] with its name. *)
Inductive TrendStatus : Type :=
| CONSOLIDATION | BULL | OTHER_TREND (name : string).

(** Modelled from the spec: the enumeration [MACDStatus] of
    [src/stock_analyzer.py].  The filter names the two golden-cross
    members and the death cross; every other member is [OTHER_MACD]. *)
Inductive MACDStatus : Type :=
| GOLDEN_CROSS_ZERO | GOLDEN_CROSS | DEATH_CROSS | OTHER_MACD (name : string).

#[global] Instance BuySignal_eq_dec : EqDecision BuySignal.
Proof. solve_decision. Defined.
#[global] Instance TrendStatus_eq_dec : EqDecision TrendStatus.
Proof. solve_decision. Defined.
#[global] Instance MACDStatus_eq_dec : EqDecision MACDStatus.
Proof. solve_decision. Defined.

End StockAnalyzer.
Import StockAnalyzer.

(* ===================================================================== *)
(** * [src/core/signal_filter.py] *)
(* ===================================================================== *)

Module SignalFilter.

(** [@dataclass IntradayResult] *)
Record IntradayResult : Type := mkIntradayResult {
  code : string;
  stock_name : string;
  timestamp : datetime;
  current_price : float;
  change_pct : float;
  trend_status : TrendStatus;
  buy_signal : BuySignal;
  signal_score : Z;
  ma5 : float;
  ma10 : float;
  ma20 : float;
  bias_ma5 : float;
  volume_ratio : option float;
  volume_status : option string;
  macd_status : option MACDStatus;
  rsi_12 : option float;
  signal_reasons : list string;
  risk_factors : list string;
}.

(** A value of [_last_notifications]: [(timestamp, signal_type, signal_score)]. *)
Definition NotificationRecord : Type := (datetime * BuySignal * Z)%type.

(** The attributes of a [SignalFilter] instance. *)
Record t : Type := mkSignalFilter {
  _last_notifications : gmap string NotificationRecord;
  notify_threshold : Z;
  volume_alert : float;
  min_notify_interval : Z;
  allowed_signal_types : gset string;
}.

(** The options [__init__] reads with [getattr(config, name, default)]. *)
Record Config : Type := mkConfig {
  intraday_notify_threshold : option Z;
  intraday_volume_alert : option float;
  intraday_min_notify_interval : option Z;
  intraday_signal_types : option (list string);
}.

(** [SignalFilter.__init__] *)
Definition init (config : Config) : t :=
  {| _last_notifications := ∅;
     notify_threshold := default 60 (intraday_notify_threshold config);
     volume_alert := default 3%float (intraday_volume_alert config);
     min_notify_interval := default 1800 (intraday_min_notify_interval config);
     allowed_signal_types :=
       list_to_set
         (default ["STRONG_BUY"; "BUY"; "STRONG_SELL"]%string
                  (intraday_signal_types config)) |}.

(** The log lines of [should_notify], one per exit. *)
Inductive LogMsg : Type :=
| MsgStrongBuy          (* "触发强烈买入信号" *)
| MsgStrongSell         (* "触发强烈卖出信号" *)
| MsgVolumeSurge        (* "异常放量" *)
| MsgMACD               (* "MACD 信号" *)
| MsgRSIOversold        (* "RSI 超卖" *)
| MsgRSIOverbought      (* "RSI 超买" *)
| MsgDuplicateSkipped   (* "重复信号跳过" *)
| MsgScoreTooLow        (* "评分不足" *)
| MsgNotAllowed         (* "信号类型不在白名单" *)
| MsgHoldWaitSmallChange (* "HOLD/WAIT 信号且评分变化小" *)
| MsgConsolidation      (* "横盘整理，暂不通知" *)
| MsgReversal           (* "信号反转" *)
| MsgTriggered.         (* "信号触发" *)

(** What a method of the filter does besides returning. *)
Inductive Effect : Type :=
| Logged (m : LogMsg)
| Stored (code : string) (r : NotificationRecord).
    (* [self._last_notifications[code] = r] *)

(** A method of the filter: it reads and updates [self] and leaves a trace. *)
Definition M (A : Type) : Type := t -> A * t * list Effect.

Definition ret {A} (a : A) : M A := fun self => (a, self, []).

Definition bind {A B} (m : M A) (k : A -> M B) : M B :=
  fun self =>
    let '(a, self1, tr1) := m self in
    let '(b, self2, tr2) := k a self1 in
    (b, self2, tr1 ++ tr2).

Definition read {A} (f : t -> A) : M A := fun self => (f self, self, []).

Definition logger (m : LogMsg) : M unit := fun self => (tt, self, [Logged m]).

Definition set_last_notifications (m : gmap string NotificationRecord)
    (self : t) : t :=
  {| _last_notifications := m;
     notify_threshold := notify_threshold self;
     volume_alert := volume_alert self;
     min_notify_interval := min_notify_interval self;
     allowed_signal_types := allowed_signal_types self |}.

Notation "'let*' x ':=' m 'in' k" := (bind m (fun x => k))
  (at level 10, x name, m at level 100, k at level 200).
Notation "'run!' m 'in' k" := (bind m (fun _ => k))
  (at level 10, m at level 100, k at level 200).

(** The two places where [should_notify] reads [datetime.now()]. *)
Record Clock : Type := mkClock {
  now_dedup : datetime;   (* in the duplicate check *)
  now_record : datetime;  (* in [_record_notification] *)
}.

(** [SignalFilter._record_notification] *)
Definition _record_notification (now : datetime) (code : string)
    (signal : BuySignal) (score : Z) : M unit :=
  fun self =>
    (tt,
     set_last_notifications
       (<[code := (now, signal, score)]> (_last_notifications self)) self,
     [Stored code (now, signal, score)]).

(** [SignalFilter._is_signal_reversal] *)
Definition _is_signal_reversal (old_signal new_signal : BuySignal) : bool :=
  let buy_signals := [STRONG_BUY; BUY] in
  let sell_signals := [STRONG_SELL; SELL] in
  let old_is_buy := bool_decide (old_signal ∈ buy_signals) in
  let new_is_buy := bool_decide (new_signal ∈ buy_signals) in
  let old_is_sell := bool_decide (old_signal ∈ sell_signals) in
  let new_is_sell := bool_decide (new_signal ∈ sell_signals) in
  (old_is_buy && new_is_sell) || (old_is_sell && new_is_buy).

(** Rule 2: [result.volume_ratio and result.volume_ratio > self.volume_alert] *)
Definition volume_rule (result : IntradayResult) (self : t) : bool :=
  match volume_ratio result with
  | Some v => float_truthy v && float_gt v (volume_alert self)
  | None => false
  end.

(** Rule 3: [result.macd_status in [GOLDEN_CROSS_ZERO, GOLDEN_CROSS, DEATH_CROSS]] *)
Definition macd_rule (result : IntradayResult) : bool :=
  match macd_status result with
  | Some s => bool_decide (s ∈ [GOLDEN_CROSS_ZERO; GOLDEN_CROSS; DEATH_CROSS])
  | None => false
  end.

(** Rule 4: the branch of the RSI block that is taken, if any. *)
Definition rsi_rule (result : IntradayResult) : option LogMsg :=
  match rsi_12 result with
  | Some rsi =>
      if float_lt rsi 30%float then Some MsgRSIOversold
      else if float_gt rsi 70%float then Some MsgRSIOverbought
      else None
  | None => None
  end.

(** Rule 5: the duplicate inside the minimum notification interval. *)
Definition duplicate_rule (now : datetime) (result : IntradayResult)
    (self : t) : bool :=
  match _last_notifications self !! code result with
  | Some (last_time, last_signal, last_score) =>
      let time_diff := total_seconds (datetime_sub now last_time) in
      if Qltb time_diff (inject_Z (min_notify_interval self)) then
        let score_change := Z.abs (signal_score result - last_score) in
        bool_decide (buy_signal result = last_signal) && (score_change <? 15)
      else false
  | None => false
  end.

(** Rule 8: a HOLD or WAIT signal whose score moved by less than 15. *)
Definition hold_wait_rule (result : IntradayResult) (self : t) : bool :=
  if bool_decide (buy_signal result ∈ [HOLD; WAIT]) then
    match _last_notifications self !! code result with
    | Some (_, _, last_score) =>
        let score_change := Z.abs (signal_score result - last_score) in
        score_change <? 15
    | None => false
    end
  else false.

(** Rule 10: a record exists and the signal reversed against it. *)
Definition reversal_rule (result : IntradayResult) (self : t) : bool :=
  match _last_notifications self !! code result with
  | Some (_, last_signal, _) => _is_signal_reversal last_signal (buy_signal result)
  | None => false
  end.

(** [SignalFilter.should_notify] *)
Definition should_notify (clock : Clock) (result : IntradayResult) : M bool :=
  let code := code result in
  let signal := buy_signal result in
  let score := signal_score result in
  let notify (m : LogMsg) : M bool :=
    run! logger m in
    run! _record_notification (now_record clock) code signal score in
    ret true in
  let silent (m : LogMsg) : M bool := run! logger m in ret false in
  (* rule 1: strong buy / strong sell *)
  if bool_decide (signal = STRONG_BUY) then notify MsgStrongBuy
  else if bool_decide (signal = STRONG_SELL) then notify MsgStrongSell
  else
  (* rule 2: volume surge *)
  let* surge := read (volume_rule result) in
  if surge then notify MsgVolumeSurge
  else
  (* rule 3: MACD golden cross / death cross *)
  if macd_rule result then notify MsgMACD
  else
  (* rule 4: RSI oversold / overbought *)
  match rsi_rule result with
  | Some m => notify m
  | None =>
  (* rule 5: duplicate *)
  let* dup := read (duplicate_rule (now_dedup clock) result) in
  if dup then silent MsgDuplicateSkipped
  else
  (* rule 6: score threshold *)
  let* threshold := read notify_threshold in
  if score <? threshold then silent MsgScoreTooLow
  else
  (* rule 7: allow-list *)
  let* allowed := read allowed_signal_types in
  if negb (bool_decide (BuySignal_name signal ∈ allowed)) then silent MsgNotAllowed
  else
  (* rule 8: HOLD / WAIT *)
  let* small := read (hold_wait_rule result) in
  if small then silent MsgHoldWaitSmallChange
  else
  (* rule 9: consolidation *)
  if bool_decide (trend_status result = CONSOLIDATION) then silent MsgConsolidation
  else
  (* rule 10: reversal *)
  let* reversal := read (reversal_rule result) in
  if reversal then notify MsgReversal
  else
  (* default *)
  notify MsgTriggered
  end.

(** [SignalFilter.clear_cache] *)
Definition clear_cache : M unit :=
  fun self => (tt, set_last_notifications ∅ self, []).

(** ** Reading a trace *)

(** The dictionary stores of a trace, in order. *)
Definition stores (effects : list Effect) : list (string * NotificationRecord) :=
  omap (fun e => match e with Stored c r => Some (c, r) | Logged _ => None end)
       effects.

(** The log lines of a trace, in order. *)
Definition logged (effects : list Effect) : list LogMsg :=
  omap (fun e => match e with Logged m => Some m | Stored _ _ => None end)
       effects.

(** The filter after [self._last_notifications[code] = (now, signal, score)]
    for the given result. *)
Definition recorded (clock : Clock) (result : IntradayResult) (self : t) : t :=
  set_last_notifications
    (<[code result := (now_record clock, buy_signal result, signal_score result)]>
       (_last_notifications self)) self.

(** The two shapes in which a call of [should_notify] ends: the log line
    [m], the record stored and [True]; or the log line [m] and [False]. *)
Definition notified (m : LogMsg) (clock : Clock) (result : IntradayResult)
    (self : t) : bool * t * list Effect :=
  (true, recorded clock result self,
   [Logged m;
    Stored (code result) (now_record clock, buy_signal result, signal_score result)]).

Definition silenced (m : LogMsg) (self : t) : bool * t * list Effect :=
  (false, self, [Logged m]).

(** The result with another RSI value. *)
Definition with_rsi_12 (rsi : option float) (r : IntradayResult) : IntradayResult :=
  {| code := code r; stock_name := stock_name r; timestamp := timestamp r;
     current_price := current_price r; change_pct := change_pct r;
     trend_status := trend_status r; buy_signal := buy_signal r;
     signal_score := signal_score r; ma5 := ma5 r; ma10 := ma10 r;
     ma20 := ma20 r; bias_ma5 := bias_ma5 r; volume_ratio := volume_ratio r;
     volume_status := volume_status r; macd_status := macd_status r;
     rsi_12 := rsi;
     signal_reasons := signal_reasons r; risk_factors := risk_factors r |}.

(** The dictionary [get_stats] returns, by its keys. *)
Module Stats.
Record t : Type := mk {
  cached_stocks : Z;
  threshold : Z;
  volume_alert : float;
  min_interval : Z;
  allowed_signals : list string;
}.
End Stats.

(** [SignalFilter.get_stats] *)
Definition get_stats : M Stats.t :=
  fun self =>
    ({| Stats.cached_stocks := Z.of_nat (size (_last_notifications self));
        Stats.threshold := notify_threshold self;
        Stats.volume_alert := volume_alert self;
        Stats.min_interval := min_notify_interval self;
        Stats.allowed_signals := elements (allowed_signal_types self) |},
     self, []).

(** The attributes of the filter that [__init__] sets from the
    configuration and nothing writes afterwards. *)
Definition same_config (self self' : t) : Prop :=
  notify_threshold self' = notify_threshold self /\
  volume_alert self' = volume_alert self /\
  min_notify_interval self' = min_notify_interval self /\
  allowed_signal_types self' = allowed_signal_types self.

(** One of the rules 1 to 4 applies to the result: they notify whatever the
    score and the records are. *)
Definition triggered (result : IntradayResult) (self : t) : bool :=
  bool_decide (buy_signal result = STRONG_BUY)
  || bool_decide (buy_signal result = STRONG_SELL)
  || volume_rule result self
  || macd_rule result
  || bool_decide (rsi_rule result <> None).

(** The result passes the three checks that look at the result alone: the
    score threshold, the allow-list and the consolidation check. *)
Definition eligible (result : IntradayResult) (self : t) : bool :=
  negb (signal_score result <? notify_threshold self)
  && bool_decide (BuySignal_name (buy_signal result) ∈ allowed_signal_types self)
  && negb (bool_decide (trend_status result = CONSOLIDATION)).

End SignalFilter.

(* ===================================================================== *)
(** * [src/core/intraday_pipeline.py] *)
(* ===================================================================== *)

(** Modelled from the spec: the quote object that
  [DataFetcherManager.get_realtime_quote] returns ([data_provider/base.py]
  is not among the sources), with the attributes the pipeline reads. *)
Module RealtimeQuote.
Record t : Type := mk {
  name : string;
  price : float;
  change_pct : float;
  (* [None]: the object has no attribute [volume_ratio];
     [Some v]: it has, with value [v] (which may be Python's [None]). *)
  volume_ratio : option (option float);
}.
End RealtimeQuote.

(** Modelled from the spec: the verdict [StockTrendAnalyzer.analyze] returns
  ([src/stock_analyzer.py] is not among the sources), with the attributes
  the pipeline reads. *)
Module TrendAnalysisResult.
Record t : Type := mk {
  trend_status : TrendStatus;
  buy_signal : BuySignal;
  signal_score : Z;
  ma5 : float;
  ma10 : float;
  ma20 : float;
  bias_ma5 : float;
  (* a member of the volume-status enumeration, given by its [.value] *)
  volume_status : option string;
  macd_status : option MACDStatus;
  rsi_12 : option float;
  signal_reasons : list string;
  risk_factors : list string;
}.
End TrendAnalysisResult.

Module IntradayAnalysisPipeline.

Abbreviation IntradayResult := SignalFilter.IntradayResult.

(** A row of the history table: column name to value.  The pipeline only
    counts the rows. *)
Definition Row : Type := gmap string float.

(** [pd.DataFrame(raw_data)] for a list of rows, and [len(df)]. *)
Definition DataFrame : Type := list Row.
Definition pd_DataFrame (raw_data : list Row) : DataFrame := raw_data.
Definition len (df : DataFrame) : Z := Z.of_nat (length df).

(** The dictionary [db.get_analysis_context] returns: the value under a key
    is a list of rows or Python's [None]. *)
Definition Context : Type := gmap string (option (list Row)).

(** The collaborators of the pipeline and the readings it takes from the
    outside.  Each collaborator returns or raises; a run asks each of them
    at most once per submitted symbol, and the answer is given by symbol. *)
Record Env : Type := mkEnv {
  (* [self.fetcher_manager.get_realtime_quote(code)] *)
  get_realtime_quote : string -> outcome (option RealtimeQuote.t);
  (* [self.db.get_analysis_context(code)] *)
  get_analysis_context : string -> outcome (option Context);
  (* [self.trend_analyzer.analyze(df, code)] *)
  analyze : DataFrame -> string -> outcome TrendAnalysisResult.t;
  (* [datetime.now()] when the result of [code] is built *)
  now : string -> datetime;
  (* [random()] of the dispatch of [code], the draw behind [uniform] *)
  random : string -> float;
  (* the clock readings of the filter's call for [code] *)
  filter_clock : string -> SignalFilter.Clock;
}.

(** The attributes of a pipeline instance that [run] uses; [max_workers] is
    the width read from the configuration (3 by default), an integer. *)
Record t : Type := mkPipeline {
  signal_filter : SignalFilter.t;
  max_workers : Z;
  request_delay : float * float;
}.

Definition set_signal_filter (f : SignalFilter.t) (self : t) : t :=
  {| signal_filter := f;
     max_workers := max_workers self;
     request_delay := request_delay self |}.

(** [random.uniform(a, b)]: [a + (b - a) * random()] *)
Definition uniform (a b r : float) : float := (a + (b - a) * r)%float.

(** Step 4 of [analyze_intraday]: the result built from the quote and the
    analyzer's verdict. *)
Definition intraday_result (env : Env) (code : string)
    (realtime_quote : RealtimeQuote.t) (trend_result : TrendAnalysisResult.t)
  : IntradayResult :=
  {| SignalFilter.code := code;
     SignalFilter.stock_name := RealtimeQuote.name realtime_quote;
     SignalFilter.timestamp := now env code;
     SignalFilter.current_price := RealtimeQuote.price realtime_quote;
     SignalFilter.change_pct := RealtimeQuote.change_pct realtime_quote;
     SignalFilter.trend_status := TrendAnalysisResult.trend_status trend_result;
     SignalFilter.buy_signal := TrendAnalysisResult.buy_signal trend_result;
     SignalFilter.signal_score := TrendAnalysisResult.signal_score trend_result;
     SignalFilter.ma5 := TrendAnalysisResult.ma5 trend_result;
     SignalFilter.ma10 := TrendAnalysisResult.ma10 trend_result;
     SignalFilter.ma20 := TrendAnalysisResult.ma20 trend_result;
     SignalFilter.bias_ma5 := TrendAnalysisResult.bias_ma5 trend_result;
     (* [realtime_quote.volume_ratio if hasattr(...) else None] *)
     SignalFilter.volume_ratio :=
       match RealtimeQuote.volume_ratio realtime_quote with
       | Some v => v
       | None => None
       end;
     SignalFilter.volume_status := TrendAnalysisResult.volume_status trend_result;
     SignalFilter.macd_status := TrendAnalysisResult.macd_status trend_result;
     SignalFilter.rsi_12 := TrendAnalysisResult.rsi_12 trend_result;
     SignalFilter.signal_reasons := TrendAnalysisResult.signal_reasons trend_result;
     SignalFilter.risk_factors := TrendAnalysisResult.risk_factors trend_result |}.

(** [IntradayAnalysisPipeline.analyze_intraday] *)
Definition analyze_intraday (env : Env) (code : string)
  : outcome (option IntradayResult) :=
  try_except
    ((* step 1: the real-time quote *)
     call realtime_quote := get_realtime_quote env code in
     match realtime_quote with
     | None => Returns None          (* [not realtime_quote] *)
     | Some realtime_quote =>
     (* step 2: the history *)
     call context := get_analysis_context env code in
     match context with
     | None => Returns None          (* [not context]: it is [None] *)
     | Some context =>
     if bool_decide (context = ∅) then Returns None   (* ... or empty *)
     else
     match context !! "raw_data"%string with
     | None => Returns None          (* ['raw_data' not in context] *)
     | Some None => Returns None     (* [not raw_data]: it is [None] *)
     | Some (Some raw_data) =>
     if bool_decide (raw_data = []) then Returns None   (* ... or empty *)
     else
     let df := pd_DataFrame raw_data in
     if len df <? 20 then Returns None
     else
     (* step 3: the technical analysis *)
     call trend_result := analyze env df code in
     (* step 4: the result *)
     Returns (Some (intraday_result env code realtime_quote trend_result))
     end end end)
    (fun e => Returns None).

(** [IntradayAnalysisPipeline._analyze_with_delay] *)
Definition _analyze_with_delay (env : Env) (self : t) (code : string)
  : outcome (option IntradayResult) :=
  let delay := uniform (request_delay self).1 (request_delay self).2
                       (random env code) in
  call _u := time_sleep delay in
  analyze_intraday env code.

(** A submitted unit of work: the symbol and what [future.result()] gives. *)
Definition Future : Type := (string * outcome (option IntradayResult))%type.

(** What [run] does besides returning. *)
Inductive Event : Type :=
| LogEmptyWatchlist                    (* "股票列表为空，跳过日内分析" *)
| LogStart (n : nat)                   (* "开始日内分析 - 共 n 只股票" *)
| Submitted (code : string)            (* [executor.submit(self._analyze_with_delay, code)] *)
| Consulted (result : IntradayResult) (decision : bool)
                                       (* [self.signal_filter.should_notify(result)] *)
| Filter (e : SignalFilter.Effect)     (* what the filter did in that call *)
| LogTriggered (code : string)         (* "信号触发" *)
| LogFiltered (code : string)          (* "信号未触发，已过滤" *)
| LogTaskError (code : string) (e : exn)   (* "分析任务异常" *)
| LogSummary (succeeded total triggered : Z).  (* "日内分析完成" *)

(** The variables of the collecting loop. *)
Record Acc : Type := mkAcc {
  triggered_results : list IntradayResult;
  analyzed_count : Z;
  failed_count : Z;
  filter : SignalFilter.t;
  trace : list Event;
}.

(** One iteration of [for future in as_completed(future_to_code)]. *)
Definition collect (env : Env) (acc : Acc) (future : Future) : outcome Acc :=
  let '(code, future_result) := future in
  try_except
    (call result := future_result in
     let analyzed_count := analyzed_count acc + 1 in
     match result with
     | None =>
         Returns {| triggered_results := triggered_results acc;
                    analyzed_count := analyzed_count;
                    failed_count := failed_count acc + 1;
                    filter := filter acc;
                    trace := trace acc |}
     | Some result =>
         let '(decision, filter', effects) :=
           SignalFilter.should_notify (filter_clock env code) result (filter acc) in
         let consulted := Consulted result decision :: map Filter effects in
         if decision then
           Returns {| triggered_results := triggered_results acc ++ [result];
                      analyzed_count := analyzed_count;
                      failed_count := failed_count acc;
                      filter := filter';
                      trace := trace acc ++ consulted ++ [LogTriggered code] |}
         else
           Returns {| triggered_results := triggered_results acc;
                      analyzed_count := analyzed_count;
                      failed_count := failed_count acc;
                      filter := filter';
                      trace := trace acc ++ consulted ++ [LogFiltered code] |}
     end)
    (fun e =>
       Returns {| triggered_results := triggered_results acc;
                  analyzed_count := analyzed_count acc;
                  failed_count := failed_count acc + 1;
                  filter := filter acc;
                  trace := trace acc ++ [LogTaskError code e] |}).

(** The trace of [acc'] extends the trace of [acc]. *)
Definition trace_grows (acc acc' : Acc) : Prop :=
  exists more, trace acc' = trace acc ++ more.

(** What holds of the loop variables all along a run over [stock_codes]:
    a retained result is the result of the analysis of its symbol, the
    symbol is of the watchlist, and the filter accepted it; and what the
    filter accepted is retained. *)
Definition collected_soundly (env : Env) (stock_codes : list string)
    (acc : Acc) : Prop :=
  (forall result, result ∈ triggered_results acc ->
     SignalFilter.code result ∈ stock_codes /\
     analyze_intraday env (SignalFilter.code result) = Returns (Some result) /\
     Consulted result true ∈ trace acc) /\
  (forall result, Consulted result true ∈ trace acc ->
     result ∈ triggered_results acc).

(** The results that the workers handed back, in the order of the futures. *)
Definition handed_back (futures : list Future) : list IntradayResult :=
  omap (fun future : Future =>
          match future.2 with
          | Returns (Some result) => Some result
          | _ => None
          end) futures.

(** The collecting loop over the futures in the order they complete. *)
Fixpoint collect_all (env : Env) (acc : Acc) (futures : list Future)
  : outcome Acc :=
  match futures with
  | [] => Returns acc
  | future :: rest =>
      call acc' := collect env acc future in
      collect_all env acc' rest
  end.

(** [IntradayAnalysisPipeline.run].  [as_completed] is the order in which
    the pool's futures complete; it is chosen by the scheduling of the
    workers.  The result is what the call returns or raises, the pipeline
    afterwards, and the trace. *)
Definition run (env : Env) (as_completed : list Future -> list Future)
    (self : t) (stock_codes : list string)
  : outcome (list IntradayResult) * t * list Event :=
  if bool_decide (stock_codes = []) then
    (Returns [], self, [LogEmptyWatchlist])
  else
    (* [with ThreadPoolExecutor(max_workers=self.max_workers) as executor],
       outside every [try] *)
    match ThreadPoolExecutor (max_workers self) with
    | Raises e => (Raises e, self, [LogStart (length stock_codes)])
    | Returns _ =>
    let future_to_code : list Future :=
      map (fun code => (code, _analyze_with_delay env self code)) stock_codes in
    let submitted := LogStart (length stock_codes) :: map Submitted stock_codes in
    let acc0 := {| triggered_results := [];
                   analyzed_count := 0;
                   failed_count := 0;
                   filter := signal_filter self;
                   trace := submitted |} in
    match collect_all env acc0 (as_completed future_to_code) with
    | Raises e => (Raises e, self, submitted)
    | Returns acc =>
        (Returns (triggered_results acc),
         set_signal_filter (filter acc) self,
         trace acc ++
         [LogSummary (analyzed_count acc - failed_count acc)
                     (Z.of_nat (length stock_codes))
                     (Z.of_nat (length (triggered_results acc)))])
    end
    end.

(** The exceptions that left the workers, in the order of the futures. *)
Definition raised_in (futures : list Future) : list exn :=
  omap (fun future : Future =>
          match future.2 with
          | Raises e => Some e
          | Returns _ => None
          end) futures.

(** The collecting loop without its bookkeeping: the results handed back
    are put before the filter one after the other, in the order of the
    futures; the accepted ones are kept, and the filter is passed on. *)
Fixpoint filter_results (env : Env) (f : SignalFilter.t) (futures : list Future)
  : list IntradayResult * SignalFilter.t :=
  match futures with
  | [] => ([], f)
  | (code, Returns (Some result)) :: rest =>
      let out := SignalFilter.should_notify (filter_clock env code) result f in
      let '(kept, f') := filter_results env out.1.2 rest in
      (if out.1.1 then result :: kept else kept, f')
  | _ :: rest => filter_results env f rest
  end.

(** The futures that [run] submits for a watchlist, in the order of the
    watchlist. *)
Definition submit_all (env : Env) (self : t) (stock_codes : list string)
  : list Future :=
  map (fun code => (code, _analyze_with_delay env self code)) stock_codes.

End IntradayAnalysisPipeline.

(* ===================================================================== *)
(** * [src/intraday_scheduler.py] *)
(* ===================================================================== *)

(** Modelled from the spec: the class [GracefulShutdown] of
    [src/scheduler.py], which is not among the sources.  The spec has the
    run loop continue until an external shutdown signal is observed: the
    handler holds the flag [should_shutdown], which a termination signal
    sets, and a new handler has not been asked to shut down. *)
Module GracefulShutdown.
Record t : Type := mk {
  should_shutdown : bool;
}.
Definition new : t := {| should_shutdown := false |}.
End GracefulShutdown.

Module IntradayScheduler.

(** The module [chinese_calendar], by the one function the scheduler calls:
    [is_workday(date)] returns or raises. *)
Record Calendar : Type := mkCalendar {
  is_workday : date -> outcome bool;
}.

(** What the scheduler does besides returning. *)
Inductive Event : Type :=
| LogNonTradingDay               (* "今日非交易日，跳过日内分析" *)
| LogTaskStart (now : datetime)  (* "[日内分析] 任务开始" *)
| CallTask                       (* [self._task_callback()] *)
| LogTaskDone                    (* "[日内分析] 任务完成" *)
| LogTaskFailed (e : exn)        (* "[日内分析] 任务执行失败" *)
| LogStarted (trading_day : bool) (* "日内实时分析调度器启动" and today's verdict *)
| RunPending                     (* [self.schedule.run_pending()] *)
| LogHeartbeat                   (* "调度器运行中..." *)
| Sleep30                        (* [time.sleep(30)] *)
| LogStopped.                    (* "日内调度器已停止" *)

Definition is_call (e : Event) : bool :=
  match e with CallTask => true | _ => false end.

Definition is_run_pending (e : Event) : bool :=
  match e with RunPending => true | _ => false end.

(** How often the task was called, and how often the loop polled, in a
    trace. *)
Definition task_calls (tr : list Event) : nat := length (List.filter is_call tr).
Definition polls (tr : list Event) : nat := length (List.filter is_run_pending tr).

Definition is_heartbeat (e : Event) : bool :=
  match e with LogHeartbeat => true | _ => false end.

(** How often the heartbeat line was logged in a trace. *)
Definition heartbeats (tr : list Event) : nat :=
  length (List.filter is_heartbeat tr).

Section Scheduler.

(** Whatever the task works on: it is a zero-argument callable, so all it
    does is change the world and return or raise. *)
Variable World : Type.

Definition Task : Type := World -> outcome unit * World.

(** The attributes of a scheduler instance.  [jobs] are the jobs registered
    with the [schedule] library, by their time points; each runs
    [_safe_run_task]. *)
Record t : Type := mkScheduler {
  time_points : list string;
  holiday_detection : string;
  shutdown_handler : GracefulShutdown.t;
  _chinese_calendar : option Calendar;
  _task_callback : option Task;
  _running : bool;
  jobs : list string;
}.

(** [IntradayScheduler.__init__].  [import_schedule] tells whether
    [import schedule] succeeds; [import_chinese_calendar] is the module
    when [import chinese_calendar] succeeds.  A failed import raises
    [ImportError]. *)
Definition init (import_schedule : bool)
    (import_chinese_calendar : option Calendar)
    (time_points : list string) (holiday_detection : string) : outcome t :=
  if negb import_schedule then
    Raises (Exception "ImportError" "请安装 schedule 库: pip install schedule")
  else
    let self := {| time_points := time_points;
                   holiday_detection := holiday_detection;
                   shutdown_handler := GracefulShutdown.new;
                   _chinese_calendar := None;
                   _task_callback := None;
                   _running := false;
                   jobs := [] |} in
    if String.eqb holiday_detection "advanced" then
      match import_chinese_calendar with
      | Some chinese_calendar =>
          Returns {| time_points := time_points;
                     holiday_detection := holiday_detection;
                     shutdown_handler := GracefulShutdown.new;
                     _chinese_calendar := Some chinese_calendar;
                     _task_callback := None;
                     _running := false;
                     jobs := [] |}
      | None =>
          Returns {| time_points := time_points;
                     holiday_detection := "simple";
                     shutdown_handler := GracefulShutdown.new;
                     _chinese_calendar := None;
                     _task_callback := None;
                     _running := false;
                     jobs := [] |}
      end
    else Returns self.

(** [IntradayScheduler.is_trading_day].  [now] is [datetime.now()], used
    when no date is given. *)
Definition is_trading_day (self : t) (now : datetime) (date : option datetime)
  : outcome bool :=
  let date := match date with None => now | Some d => d end in
  (* simple mode: weekends only *)
  if String.eqb (holiday_detection self) "simple" then
    let is_weekday := weekday date <? 5 in
    Returns is_weekday
  else
  (* advanced mode: chinese_calendar *)
  match _chinese_calendar self with
  | Some chinese_calendar =>
      try_except
        (call is_workday := is_workday chinese_calendar (date_of date) in
         Returns is_workday)
        (fun e => Returns (weekday date <? 5))
  | None =>
  (* default fallback *)
  Returns (weekday date <? 5)
  end.

(** The loop of [set_intraday_tasks]: for each time point in turn,
    [self.schedule.every().day.at(time_point).do(self._safe_run_task)].
    [schedule_at] is what the library does with the time point: it accepts
    it, and the job is registered, or it raises; what it raises is not
    caught, and the jobs registered before stay. *)
Fixpoint register_jobs (schedule_at : string -> outcome unit)
    (points : list string) (jobs : list string) : outcome unit * list string :=
  match points with
  | [] => (Returns tt, jobs)
  | time_point :: rest =>
      match schedule_at time_point with
      | Raises e => (Raises e, jobs)
      | Returns _ => register_jobs schedule_at rest (jobs ++ [time_point])
      end
  end.

(** The scheduler with the task as its callback and the given jobs. *)
Definition with_task (self : t) (task : Task) (jobs' : list string) : t :=
  {| time_points := time_points self;
     holiday_detection := holiday_detection self;
     shutdown_handler := shutdown_handler self;
     _chinese_calendar := _chinese_calendar self;
     _task_callback := Some task;
     _running := _running self;
     jobs := jobs' |}.

(** [IntradayScheduler.set_intraday_tasks]: what the call returns or
    raises, and the scheduler afterwards. *)
Definition set_intraday_tasks (schedule_at : string -> outcome unit)
    (self : t) (task : Task) : outcome unit * t :=
  let '(result, jobs') :=
    register_jobs schedule_at (time_points self) (jobs self) in
  (result, with_task self task jobs').

(** [IntradayScheduler._safe_run_task]: what the call returns or raises,
    the world afterwards, and the trace. *)
Definition _safe_run_task (self : t) (now : datetime) (w : World)
  : outcome unit * World * list Event :=
  match _task_callback self with
  | None => (Returns tt, w, [])
  | Some task =>
      (* the trading-day check, outside the [try] *)
      match is_trading_day self now None with
      | Raises e => (Raises e, w, [])
      | Returns false => (Returns tt, w, [LogNonTradingDay])
      | Returns true =>
          let '(result, w') := task w in
          (try_except
             (call _u := result in Returns tt)
             (fun e => Returns tt),
           w',
           [LogTaskStart now; CallTask] ++
           match result with
           | Returns _ => [LogTaskDone]
           | Raises e => [LogTaskFailed e]
           end)
      end
  end.

(** [schedule.run_pending()] with [due] jobs due: the library runs them one
    after the other and does not catch what a job raises. *)
Fixpoint run_pending (self : t) (now : datetime) (due : nat) (w : World)
  : outcome unit * World * list Event :=
  match due with
  | O => (Returns tt, w, [])
  | S due' =>
      let '(result, w1, tr1) := _safe_run_task self now w in
      match result with
      | Raises e => (Raises e, w1, tr1)
      | Returns _ =>
          let '(result2, w2, tr2) := run_pending self now due' w1 in
          (result2, w2, tr1 ++ tr2)
      end
  end.

(** What one pass of the run loop finds: the clock, the two flags of the
    loop test as they stand then ([stop()] and the signal that sets the flag
    of [self.shutdown_handler] arrive from outside), and how many registered
    jobs are due. *)
Record Tick : Type := mkTick {
  tick_now : datetime;
  running : bool;          (* [self._running] *)
  should_shutdown : bool;  (* [self.shutdown_handler.should_shutdown] *)
  due : nat;
}.

Definition live (tick : Tick) : bool := running tick && negb (should_shutdown tick).

(** How the loop stands after the given ticks. *)
Inductive Status : Type :=
| Stopped              (* the loop test failed: the loop was left *)
| Polling              (* the loop is still running *)
| Crashed (e : exn).   (* an exception left the loop *)

(** The [while] loop of [run], over the ticks it lives through. *)
Fixpoint loop (self : t) (ticks : list Tick) (last_heartbeat_minute : Z)
    (w : World) : Status * World * list Event :=
  match ticks with
  | [] => (Polling, w, [])
  | tick :: rest =>
      if live tick then
        let '(result, w1, tr1) := run_pending self (tick_now tick) (due tick) w in
        match result with
        | Raises e => (Crashed e, w1, RunPending :: tr1)
        | Returns _ =>
            let current_minute := minute (tick_now tick) in
            let beat := (current_minute =? 0)
                        && negb (current_minute =? last_heartbeat_minute) in
            let last' := if beat then current_minute else last_heartbeat_minute in
            let '(status, w2, tr2) := loop self rest last' w1 in
            (status, w2,
             RunPending :: tr1 ++ (if beat then [LogHeartbeat] else [])
               ++ Sleep30 :: tr2)
        end
      else (Stopped, w, [LogStopped])
  end.

(** [IntradayScheduler.run] *)
Definition run (self : t) (now : datetime) (ticks : list Tick) (w : World)
  : Status * World * list Event :=
  match is_trading_day self now None with
  | Raises e => (Crashed e, w, [])
  | Returns today =>
      let '(status, w', tr) := loop self ticks (-1) w in
      (status, w', LogStarted today :: tr)
  end.

(** How often the task is due to be called over the given ticks: once per
    due job of a tick whose day is a trading day. *)
Fixpoint calls_due (self : t) (ticks : list Tick) : nat :=
  match ticks with
  | [] => O
  | tick :: rest =>
      (match is_trading_day self (tick_now tick) None with
       | Returns true => due tick
       | _ => O
       end + calls_due self rest)%nat
  end.

(** The due jobs of the ticks that fall on Monday to Friday. *)
Fixpoint weekday_jobs (ticks : list Tick) : nat :=
  match ticks with
  | [] => O
  | tick :: rest =>
      ((if (weekday (tick_now tick) <? 5)%Z then due tick else O)
       + weekday_jobs rest)%nat
  end.

(** [IntradayScheduler.stop] *)
Definition stop (self : t) : t :=
  {| time_points := time_points self;
     holiday_detection := holiday_detection self;
     shutdown_handler := shutdown_handler self;
     _chinese_calendar := _chinese_calendar self;
     _task_callback := _task_callback self;
     _running := false;
     jobs := jobs self |}.

(** [run_with_intraday_schedule].  The two imports are those of
    [IntradayScheduler.__init__], [schedule_at] is that of
    [set_intraday_tasks], the clock and the ticks are those of
    [IntradayScheduler.run].  An exception that leaves the function before
    the loop is reported as [Crashed]. *)
Definition run_with_intraday_schedule (schedule_at : string -> outcome unit)
    (import_schedule : bool)
    (import_chinese_calendar : option Calendar)
    (task : Task) (time_points : option (list string))
    (holiday_detection : string)
    (now : datetime) (ticks : list Tick) (w : World)
  : Status * World * list Event :=
  let time_points :=
    match time_points with
    | None => ["09:30"; "13:00"; "14:45"]%string
    | Some time_points => time_points
    end in
  match init import_schedule import_chinese_calendar time_points
             holiday_detection with
  | Raises e => (Crashed e, w, [])
  | Returns scheduler =>
      match set_intraday_tasks schedule_at scheduler task with
      | (Raises e, _) => (Crashed e, w, [])
      | (Returns _, scheduler) => run scheduler now ticks w
      end
  end.

(** The world after [n] calls of the task, one after the other. *)
Definition after_calls (task : Task) (n : nat) (w : World) : World :=
  Nat.iter n (fun w => (task w).2) w.

End Scheduler.

Arguments mkScheduler {World}.
Arguments time_points {World}.
Arguments holiday_detection {World}.
Arguments _chinese_calendar {World}.
Arguments _task_callback {World}.
Arguments _running {World}.
Arguments jobs {World}.
Arguments shutdown_handler {World}.
Arguments with_task {World}.
Arguments is_trading_day {World}.
Arguments set_intraday_tasks {World}.
Arguments _safe_run_task {World}.
Arguments run_pending {World}.
Arguments loop {World}.
Arguments run {World}.
Arguments calls_due {World}.
Arguments init {World}.
Arguments stop {World}.
Arguments run_with_intraday_schedule {World}.
Arguments after_calls {World}.

End IntradayScheduler.

(* ===================================================================== *)
(** * Concrete inputs *)
(* ===================================================================== *)

Module Examples.
Import SignalFilter.

(** The filter of the default configuration, with no record yet. *)
Definition filter0 : t := init (mkConfig None None None None).

Definition seconds (n : Z) : datetime := n * us_per_second.

(** The three results of the self-test of [signal_filter.py]. *)
Definition result1 : IntradayResult :=
  mkIntradayResult "600519" "Kweichow Moutai" 0 1850 2.5 BULL STRONG_BUY 85
    1820 1800 1780 1.6 None None None None [] [].
Definition result2 : IntradayResult :=
  mkIntradayResult "000001" "Ping An Bank" 0 12.5 (-0.5) CONSOLIDATION HOLD 50
    12.6 12.7 12.8 (-0.8) None None None None [] [].
Definition result3 : IntradayResult :=
  mkIntradayResult "300750" "CATL" 0 180 1.2 BULL HOLD 55
    178 176 174 1.1 (Some 4.5%float) None None None [] [].

(** A plain buy with a score above the threshold, and the sell that follows
    it for the same symbol, once with a score below the threshold and once
    above; no volume ratio, MACD status or RSI. *)
Definition buy70 : IntradayResult :=
  mkIntradayResult "600519" "Kweichow Moutai" 0 1850 2.5 BULL BUY 70
    1820 1800 1780 1.6 None None None None [] [].
Definition sell40 : IntradayResult :=
  mkIntradayResult "600519" "Kweichow Moutai" 0 1700 (-8.1) (OTHER_TREND "BEAR") SELL 40
    1820 1800 1780 (-6.6) None None None None [] [].
Definition sell80 : IntradayResult :=
  mkIntradayResult "600519" "Kweichow Moutai" 0 1700 (-8.1) (OTHER_TREND "BEAR") SELL 80
    1820 1800 1780 (-6.6) None None None None [] [].

(** The clock of a call made [n] seconds after the first instant. *)
Definition at_second (n : Z) : Clock := mkClock (seconds n) (seconds n).

(** The filter after the buy was notified at second 0. *)
Definition after_buy : t := (should_notify (at_second 0) buy70 filter0).1.2.

End Examples.

Module PipelineExamples.
Import IntradayAnalysisPipeline.

Definition rows (n : nat) : list Row := replicate n ∅.

Definition quote0 : RealtimeQuote.t :=
  RealtimeQuote.mk "quote" 1850 2.5 (Some (Some 1.2%float)).

Definition verdict0 : TrendAnalysisResult.t :=
  TrendAnalysisResult.mk BULL BUY 70 1820 1800 1780 1.6 None None None [] [].

Definition connection_error : exn := Exception "ConnectionError" "timed out".

(** Every collaborator answers; the history has [n] rows. *)
Definition env_rows (n : nat) : Env :=
  mkEnv (fun _ => Returns (Some quote0))
        (fun _ => Returns (Some {[ "raw_data"%string := Some (rows n) ]}))
        (fun _ _ => Returns verdict0)
        (fun _ => 0) (fun _ => 0.5%float) (fun _ => Examples.at_second 0).

(** The quote of 000001 cannot be retrieved, the history of 300750 cannot be
    read, the analyzer fails on 002594; every other symbol has 30 rows. *)
Definition env_failing : Env :=
  mkEnv (fun code => if String.eqb code "000001"
                     then Raises connection_error
                     else Returns (Some quote0))
        (fun code => if String.eqb code "300750"
                     then Raises connection_error
                     else Returns (Some {[ "raw_data"%string := Some (rows 30) ]}))
        (fun _ code => if String.eqb code "002594"
                       then Raises (Exception "ValueError" "bad frame")
                       else Returns verdict0)
        (fun _ => 0) (fun _ => 0.5%float) (fun _ => Examples.at_second 0).

Definition pipeline0 : t := mkPipeline Examples.filter0 3 (2%float, 3%float).

Definition watchlist : list string :=
  ["600519"; "000001"; "300750"; "002594"; "601318"]%string.

(** The same pipeline with a pool width of 0 in its configuration. *)
Definition pipeline_width0 : t := mkPipeline Examples.filter0 0 (2%float, 3%float).

End PipelineExamples.

Module SchedulerExamples.
Import IntradayScheduler.

(** 09:30 on Saturday 2024-01-06 and on Monday 2024-01-08. *)
Definition saturday : datetime := 63840130200000000.
Definition monday : datetime := 63840303000000000.

(** A calendar whose lookup fails for every date. *)
Definition broken_calendar : Calendar :=
  mkCalendar (fun _ => Raises (Exception "NotImplementedError" "no data for the year")).

(** The world of the example task: how often it ran. *)
Definition failing_task : Task nat :=
  fun runs => (Raises (Exception "RuntimeError" "analysis failed"), S runs).

Definition advanced_scheduler : t nat :=
  mkScheduler ["09:30"; "13:00"; "14:45"]%string "advanced"
              GracefulShutdown.new (Some broken_calendar)
              (Some failing_task) true ["09:30"; "13:00"; "14:45"]%string.

(** Three polls: one job due on Monday, one on Saturday, two on Monday. *)
Definition three_ticks : list Tick :=
  [mkTick monday true false 1; mkTick saturday true false 1;
   mkTick monday true false 2].

End SchedulerExamples.

Module MoreExamples.
Import SignalFilter.

(** A filter that lets HOLD through, with a threshold of 50. *)
Definition filter_hold : t :=
  init (mkConfig (Some 50) None None (Some ["HOLD"%string])).

Definition hold55 : IntradayResult :=
  mkIntradayResult "000001" "Ping An Bank" 0 12.5 0.4 BULL HOLD 55
    12.6 12.7 12.8 (-0.8) None None None None [] [].
Definition hold60 : IntradayResult :=
  mkIntradayResult "000001" "Ping An Bank" 0 12.9 3.2 BULL HOLD 60
    12.6 12.7 12.8 2.4 None None None None [] [].

(** The filter after the first HOLD was notified at second 0. *)
Definition after_hold : t :=
  (should_notify (Examples.at_second 0) hold55 filter_hold).1.2.

(** No quote can be retrieved for any symbol. *)
Definition env_offline : IntradayAnalysisPipeline.Env :=
  IntradayAnalysisPipeline.mkEnv
    (fun _ => Raises PipelineExamples.connection_error)
    (fun _ => Returns None)
    (fun _ _ => Returns PipelineExamples.verdict0)
    (fun _ => 0) (fun _ => 0.5%float) (fun _ => Examples.at_second 0).

End MoreExamples.

Module MoreSchedulerExamples.
Import IntradayScheduler.

(** Simple mode, with a calendar at hand that would fail if asked. *)
Definition simple_scheduler : t nat :=
  mkScheduler ["09:30"; "13:00"; "14:45"]%string "simple"
              GracefulShutdown.new
              (Some SchedulerExamples.broken_calendar)
              (Some SchedulerExamples.failing_task) true
              ["09:30"; "13:00"; "14:45"]%string.

(** No task was registered. *)
Definition idle_scheduler : t nat :=
  mkScheduler ["09:30"]%string "simple" GracefulShutdown.new None None true [].

(** A scheduler whose second time point lacks its colon. *)
Definition rejected_scheduler : IntradayScheduler.t nat :=
  mkScheduler ["09:30"; "1300"; "14:45"]%string "simple" GracefulShutdown.new
              None None false [].

(** What the [schedule] library does with a time point, reduced to the
    two-digit hour and minute form: it accepts five characters with a colon
    in the middle, and raises otherwise. *)
Definition schedule_at (time_point : string) : outcome unit :=
  if (String.length time_point =? 5)%nat
     && String.eqb (String.substring 2 1 time_point) ":"
  then Returns tt
  else Raises (Exception "ScheduleValueError" "Invalid time format").

(** The shutdown is requested at the third poll. *)
Definition ticks_with_shutdown : list Tick :=
  [mkTick SchedulerExamples.monday true false 1;
   mkTick SchedulerExamples.monday true false 2;
   mkTick SchedulerExamples.monday true true 1;
   mkTick SchedulerExamples.monday true false 3].

End MoreSchedulerExamples.

(* ===================================================================== *)
(** * Properties of the signal filter *)
(* ===================================================================== *)

Section FilterFacts.
Import SignalFilter.

Ltac unfold_filter :=
  unfold should_notify, notified, silenced, recorded, SignalFilter.bind,
    read, logger, ret, _record_notification; cbn.

(** Case analysis along the rules, in the order of the source. *)
Ltac split_rules :=
  repeat match goal with
    | |- context [if ?b then _ else _] => destruct b eqn:?; cbn
    | |- context [match rsi_rule ?r with _ => _ end] =>
        destruct (rsi_rule r) eqn:?; cbn
    end.

(** [should_notify], rule by rule: each rule either ends the call in one of
    the two shapes or hands over to the next. *)
Lemma should_notify_unfold clock result self :
  should_notify clock result self =
  if bool_decide (buy_signal result = STRONG_BUY) then
    notified MsgStrongBuy clock result self
  else if bool_decide (buy_signal result = STRONG_SELL) then
    notified MsgStrongSell clock result self
  else if volume_rule result self then notified MsgVolumeSurge clock result self
  else if macd_rule result then notified MsgMACD clock result self
  else match rsi_rule result with
  | Some m => notified m clock result self
  | None =>
    if duplicate_rule (now_dedup clock) result self then
      silenced MsgDuplicateSkipped self
    else if signal_score result <? notify_threshold self then
      silenced MsgScoreTooLow self
    else if negb (bool_decide (BuySignal_name (buy_signal result)
                                 ∈ allowed_signal_types self)) then
      silenced MsgNotAllowed self
    else if hold_wait_rule result self then silenced MsgHoldWaitSmallChange self
    else if bool_decide (trend_status result = CONSOLIDATION) then
      silenced MsgConsolidation self
    else if reversal_rule result self then notified MsgReversal clock result self
    else notified MsgTriggered clock result self
  end.
Proof.
  unfold_filter.
  split_rules; first [reflexivity | congruence].
Qed.

(** Every call ends in one of the two shapes. *)
Lemma should_notify_cases clock result self :
  (exists m, should_notify clock result self = notified m clock result self) \/
  (exists m, should_notify clock result self = silenced m self).
Proof.
  rewrite should_notify_unfold.
  split_rules; eauto.
Qed.

(** The configuration is never written, and the volume rule reads only it. *)
Lemma recorded_config clock result self :
  notify_threshold (recorded clock result self) = notify_threshold self /\
  volume_alert (recorded clock result self) = volume_alert self /\
  min_notify_interval (recorded clock result self) = min_notify_interval self /\
  allowed_signal_types (recorded clock result self) = allowed_signal_types self.
Proof. unfold recorded, set_last_notifications. cbn. done. Qed.

Lemma Qltb_true x y : Qlt x y -> Qltb x y = true.
Proof.
  intros Hlt. unfold Qltb.
  destruct (Qle_bool y x) eqn:Hle; [|done].
  apply Qle_bool_iff in Hle. by apply Qle_not_lt in Hle.
Qed.

(** C3. A result whose signal is STRONG_BUY or STRONG_SELL is always
    notified: [should_notify] returns [True] whatever the score, the volume
    ratio, the trend, the configuration of the filter (threshold, allow-list,
    interval) and the records it holds. *)
Theorem strong_signal_always_notifies clock result self :
  buy_signal result = STRONG_BUY \/ buy_signal result = STRONG_SELL ->
  (should_notify clock result self).1.1 = true.
Proof.
  intros Hstrong. rewrite should_notify_unfold.
  destruct Hstrong as [-> | ->]; reflexivity.
Qed.

Lemma strong_signal_always_notifies_witness :
  (should_notify (Examples.at_second 0) Examples.result1 Examples.filter0).1.1 = true.
Proof.
  apply (strong_signal_always_notifies (Examples.at_second 0) Examples.result1
           Examples.filter0).
  left. reflexivity.
Defined.

(** C4. [should_notify] returns [True] exactly when it stores the record
    (now, signal, score) under the result's symbol, and then that store is
    the only one; when it returns [False] it stores nothing and the filter
    is unchanged; records of other symbols are the same before and after in
    every case. *)
Theorem should_notify_records_iff_notifies clock result self :
  let out := should_notify clock result self in
  let record := (now_record clock, buy_signal result, signal_score result) in
  (out.1.1 = true <-> stores out.2 = [(code result, record)]) /\
  (out.1.1 = true ->
     _last_notifications out.1.2
       = <[code result := record]> (_last_notifications self)) /\
  (out.1.1 = false -> stores out.2 = [] /\ out.1.2 = self) /\
  (forall other : string, other <> code result ->
     _last_notifications out.1.2 !! other = _last_notifications self !! other).
Proof.
  cbv zeta.
  destruct (should_notify_cases clock result self) as [[m ->] | [m ->]];
    unfold notified, silenced, recorded; cbn.
  - repeat split; try done.
    intros other Hne. by rewrite lookup_insert_ne.
  - repeat split; try done.
Qed.

(** C1, on the code. After a buy was notified, a sell for the same symbol
    is a reversal, and yet it is not notified when nothing else triggers:
    with a score below the threshold the call ends at the score check, and
    with a score above it at the allow-list, which by default has no SELL.
    Both calls are made two hours after the buy, outside the interval of
    the duplicate check. *)
Theorem reversal_below_threshold_is_silenced :
  _last_notifications Examples.after_buy !! "600519"%string = Some (0, BUY, 70) /\
  _is_signal_reversal BUY SELL = true /\
  should_notify (Examples.at_second 7200) Examples.sell40 Examples.after_buy
    = silenced MsgScoreTooLow Examples.after_buy /\
  should_notify (Examples.at_second 7200) Examples.sell80 Examples.after_buy
    = silenced MsgNotAllowed Examples.after_buy.
Proof. vm_compute. repeat split; reflexivity. Qed.

(** Without any of the triggers of rules 1 to 4, a score below the threshold
    is never notified, whatever the filter has recorded; a reversal against
    the record makes no difference. *)
Lemma untriggered_low_score_is_silenced clock result self :
  buy_signal result <> STRONG_BUY ->
  buy_signal result <> STRONG_SELL ->
  volume_rule result self = false ->
  macd_rule result = false ->
  rsi_rule result = None ->
  signal_score result < notify_threshold self ->
  (should_notify clock result self).1.1 = false /\
  (should_notify clock result self).1.2 = self.
Proof.
  intros Hbuy Hsell Hvol Hmacd Hrsi Hscore.
  rewrite should_notify_unfold.
  rewrite !bool_decide_eq_false_2 by done.
  rewrite Hvol, Hmacd, Hrsi.
  apply Z.ltb_lt in Hscore. rewrite Hscore.
  destruct (duplicate_rule _ _ _); done.
Qed.

Lemma untriggered_low_score_is_silenced_witness :
  (should_notify (Examples.at_second 7200) Examples.sell40 Examples.after_buy).1.1
    = false /\
  (should_notify (Examples.at_second 7200) Examples.sell40 Examples.after_buy).1.2
    = Examples.after_buy.
Proof.
  apply (untriggered_low_score_is_silenced (Examples.at_second 7200)
           Examples.sell40 Examples.after_buy).
  - discriminate.
  - discriminate.
  - reflexivity.
  - reflexivity.
  - reflexivity.
  - vm_compute. reflexivity.
Defined.

(** C2 as stated fails: a STRONG_BUY result is notified, and the same result
    one second later, well inside the interval of 1800 seconds, is notified
    again. *)
Lemma second_call_strong_signal_notifies_again :
  let first := should_notify (Examples.at_second 0) Examples.result1 Examples.filter0 in
  let second := should_notify (Examples.at_second 1) Examples.result1 first.1.2 in
  first.1.1 = true /\
  Qlt (total_seconds (datetime_sub (now_dedup (Examples.at_second 1))
                                   (now_record (Examples.at_second 0))))
      (inject_Z (min_notify_interval first.1.2)) /\
  second.1.1 = true.
Proof. vm_compute. repeat split; reflexivity. Qed.

(** C2, amended. If [should_notify] returned [True] for a result, then a
    second call for the same symbol, made while less than the minimum
    interval has elapsed since the record was stored, with the same signal
    and a score less than 15 away from the recorded one, returns [False]
    and changes nothing, provided the second result triggers none of the
    rules that come before the duplicate check: its signal is neither
    STRONG_BUY nor STRONG_SELL, and the volume, MACD and RSI rules do not
    apply to it. *)
Theorem second_call_in_window_is_suppressed clock1 clock2 result result2 self :
  (should_notify clock1 result self).1.1 = true ->
  code result2 = code result ->
  buy_signal result2 = buy_signal result ->
  Z.abs (signal_score result2 - signal_score result) < 15 ->
  Qlt (total_seconds (datetime_sub (now_dedup clock2) (now_record clock1)))
      (inject_Z (min_notify_interval self)) ->
  buy_signal result2 <> STRONG_BUY ->
  buy_signal result2 <> STRONG_SELL ->
  volume_rule result2 self = false ->
  macd_rule result2 = false ->
  rsi_rule result2 = None ->
  should_notify clock2 result2 (should_notify clock1 result self).1.2
    = silenced MsgDuplicateSkipped (should_notify clock1 result self).1.2.
Proof.
  intros Htrue Hcode Hsignal Hscore Hwindow Hbuy Hsell Hvol Hmacd Hrsi.
  destruct (should_notify_cases clock1 result self) as [[m Heq] | [m Heq]];
    rewrite Heq in Htrue |- *; [clear Htrue | discriminate].
  cbn [notified fst snd].
  rewrite should_notify_unfold.
  rewrite !bool_decide_eq_false_2 by done.
  replace (volume_rule result2 (recorded clock1 result self))
    with (volume_rule result2 self) by reflexivity.
  rewrite Hvol, Hmacd, Hrsi.
  assert (duplicate_rule (now_dedup clock2) result2 (recorded clock1 result self)
          = true) as ->; [|reflexivity].
  unfold duplicate_rule, recorded. cbn.
  rewrite Hcode, lookup_insert_eq.
  rewrite Qltb_true by done.
  rewrite bool_decide_eq_true_2 by done.
  apply Z.ltb_lt. done.
Qed.

Lemma second_call_in_window_is_suppressed_witness :
  should_notify (Examples.at_second 1) Examples.buy70
    (should_notify (Examples.at_second 0) Examples.buy70 Examples.filter0).1.2
  = silenced MsgDuplicateSkipped
      (should_notify (Examples.at_second 0) Examples.buy70 Examples.filter0).1.2.
Proof.
  apply (second_call_in_window_is_suppressed
           (Examples.at_second 0) (Examples.at_second 1)
           Examples.buy70 Examples.buy70 Examples.filter0).
  - vm_compute. reflexivity.
  - reflexivity.
  - reflexivity.
  - vm_compute. reflexivity.
  - vm_compute. reflexivity.
  - discriminate.
  - discriminate.
  - reflexivity.
  - reflexivity.
  - reflexivity.
Defined.

(** The RSI rule at the four values of the boundary. *)
Lemma rsi_rule_boundary result :
  rsi_rule (with_rsi_12 (Some 30%float) result) = None /\
  rsi_rule (with_rsi_12 (Some 70%float) result) = None /\
  rsi_rule (with_rsi_12 (Some 29.9%float) result) = Some MsgRSIOversold /\
  rsi_rule (with_rsi_12 (Some 70.1%float) result) = Some MsgRSIOverbought.
Proof. repeat split; vm_compute; reflexivity. Qed.

(** C7. The RSI rule compares strictly. For every result, with an RSI of
    exactly 30 or exactly 70 the rule takes neither branch, and no call of
    [should_notify] logs an RSI line; with an RSI of 29.9 the rule takes the
    oversold branch and with 70.1 the overbought branch, and a call that
    reaches the rule (the signal is not a strong one, the volume and MACD
    rules do not apply) ends there: it logs that branch, stores the record
    and returns [True]. *)
Theorem rsi_rule_is_strict result clock self :
  (forall rsi, rsi = 30%float \/ rsi = 70%float ->
     rsi_rule (with_rsi_12 (Some rsi) result) = None /\
     (MsgRSIOversold
        ∉ logged ((should_notify clock (with_rsi_12 (Some rsi) result) self).2)) /\
     (MsgRSIOverbought
        ∉ logged ((should_notify clock (with_rsi_12 (Some rsi) result) self).2))) /\
  (rsi_rule (with_rsi_12 (Some 29.9%float) result) = Some MsgRSIOversold /\
   rsi_rule (with_rsi_12 (Some 70.1%float) result) = Some MsgRSIOverbought) /\
  (buy_signal result <> STRONG_BUY -> buy_signal result <> STRONG_SELL ->
   volume_rule result self = false -> macd_rule result = false ->
   should_notify clock (with_rsi_12 (Some 29.9%float) result) self
     = notified MsgRSIOversold clock (with_rsi_12 (Some 29.9%float) result) self /\
   should_notify clock (with_rsi_12 (Some 70.1%float) result) self
     = notified MsgRSIOverbought clock (with_rsi_12 (Some 70.1%float) result) self).
Proof.
  destruct (rsi_rule_boundary result) as (H30 & H70 & Hlow & Hhigh).
  split; [|split].
  - intros rsi Hrsi.
    assert (rsi_rule (with_rsi_12 (Some rsi) result) = None) as Hnone
      by (destruct Hrsi as [-> | ->]; done).
    split; [done|].
    rewrite should_notify_unfold, Hnone.
    unfold notified, silenced, logged.
    split; split_rules; cbn;
      rewrite list_elem_of_singleton; discriminate.
  - done.
  - intros Hbuy Hsell Hvol Hmacd.
    rewrite !should_notify_unfold.
    change (buy_signal (with_rsi_12 _ result)) with (buy_signal result).
    rewrite !bool_decide_eq_false_2 by done.
    change (volume_rule (with_rsi_12 _ result) self) with (volume_rule result self).
    change (macd_rule (with_rsi_12 _ result)) with (macd_rule result).
    rewrite Hvol, Hmacd, Hlow, Hhigh. done.
Qed.

Lemma rsi_rule_is_strict_witness :
  should_notify (Examples.at_second 0)
    (with_rsi_12 (Some 29.9%float) Examples.result2) Examples.filter0
  = notified MsgRSIOversold (Examples.at_second 0)
      (with_rsi_12 (Some 29.9%float) Examples.result2) Examples.filter0 /\
  should_notify (Examples.at_second 0)
    (with_rsi_12 (Some 70.1%float) Examples.result2) Examples.filter0
  = notified MsgRSIOverbought (Examples.at_second 0)
      (with_rsi_12 (Some 70.1%float) Examples.result2) Examples.filter0.
Proof.
  apply (rsi_rule_is_strict Examples.result2 (Examples.at_second 0) Examples.filter0).
  - discriminate.
  - discriminate.
  - reflexivity.
  - reflexivity.
Defined.

(** ** Further properties of the filter *)

(** The decision of [should_notify] as one formula: a trigger of rules 1 to
    4, or an eligible result that is neither a duplicate inside the interval
    nor a HOLD/WAIT whose score hardly moved. The reversal check is not in
    it. *)
Lemma should_notify_decision clock result self :
  (should_notify clock result self).1.1
  = triggered result self
    || (eligible result self
        && negb (duplicate_rule (now_dedup clock) result self)
        && negb (hold_wait_rule result self)).
Proof.
  rewrite should_notify_unfold. unfold triggered, eligible.
  destruct (bool_decide (buy_signal result = STRONG_BUY)); [done|].
  destruct (bool_decide (buy_signal result = STRONG_SELL)); [done|].
  destruct (volume_rule result self); [done|].
  destruct (macd_rule result); [done|].
  destruct (rsi_rule result) as [m|] eqn:Hrsi.
  - rewrite (bool_decide_eq_true_2 (Some m <> None)) by done. done.
  - rewrite (bool_decide_eq_false_2 (@None LogMsg <> None))
      by (intros H; by apply H).
    destruct (duplicate_rule _ _ _); cbn; [by rewrite andb_false_r|].
    destruct (signal_score result <? notify_threshold self); [done|].
    destruct (bool_decide (BuySignal_name _ ∈ _)); [|done].
    destruct (hold_wait_rule result self); cbn; [by rewrite andb_false_r|].
    destruct (bool_decide (trend_status result = CONSOLIDATION)); [done|].
    destruct (reversal_rule result self); done.
Qed.

(** What a call leaves of the filter: the filter itself, or the filter with
    the record stored. *)
Lemma should_notify_state clock result self :
  (should_notify clock result self).1.2
  = if (should_notify clock result self).1.1
    then recorded clock result self else self.
Proof.
  destruct (should_notify_cases clock result self) as [[m ->] | [m ->]]; done.
Qed.

(** A call touches neither the configuration nor the record of any other
    symbol. *)
Lemma should_notify_frame clock result self :
  same_config self (should_notify clock result self).1.2 /\
  forall other : string, other <> code result ->
    _last_notifications (should_notify clock result self).1.2 !! other
    = _last_notifications self !! other.
Proof.
  rewrite should_notify_state.
  destruct ((should_notify clock result self).1.1); [|done].
  split; [done|]. intros other Hne. unfold recorded. cbn.
  by rewrite lookup_insert_ne.
Qed.

(** The rules that read the records find nothing for a symbol without one. *)
Lemma no_record_rules now result self :
  _last_notifications self !! code result = None ->
  duplicate_rule now result self = false /\
  hold_wait_rule result self = false /\
  reversal_rule result self = false.
Proof.
  intros Hnone. unfold duplicate_rule, hold_wait_rule, reversal_rule.
  unfold NotificationRecord in *.
  rewrite Hnone. by destruct (bool_decide _).
Qed.

(** What the rules read of the filter after a record was stored. *)
Lemma recorded_rules clock result self result2 :
  volume_rule result2 (recorded clock result self) = volume_rule result2 self /\
  triggered result2 (recorded clock result self) = triggered result2 self /\
  eligible result2 (recorded clock result self) = eligible result2 self.
Proof. done. Qed.

Lemma Qltb_false x y : Qle y x -> Qltb x y = false.
Proof.
  intros Hle. unfold Qltb. apply Qle_bool_iff in Hle. by rewrite Hle.
Qed.

(** X2. [_is_signal_reversal] is symmetric in its two signals, never holds
    of a signal and itself, never holds when one of the two is HOLD or WAIT,
    and does not chain: the reversal of a reversal is none. *)
Theorem is_signal_reversal_properties old_signal new_signal third_signal :
  _is_signal_reversal old_signal new_signal
    = _is_signal_reversal new_signal old_signal /\
  _is_signal_reversal old_signal old_signal = false /\
  _is_signal_reversal HOLD new_signal = false /\
  _is_signal_reversal WAIT new_signal = false /\
  _is_signal_reversal old_signal HOLD = false /\
  _is_signal_reversal old_signal WAIT = false /\
  (_is_signal_reversal old_signal new_signal
   && _is_signal_reversal new_signal third_signal
   && _is_signal_reversal old_signal third_signal) = false.
Proof.
  destruct old_signal, new_signal, third_signal; vm_compute; done.
Qed.

(** X3. A volume ratio that is set, not zero and above the alert multiple, a
    MACD status that is a golden cross or the death cross, or an RSI below
    30 or above 70: each makes [should_notify] return [True] and store the
    record, whatever the score, the signal, the trend and the records. *)
Theorem trigger_always_notifies clock result self :
  (exists v, volume_ratio result = Some v /\
             float_truthy v = true /\ float_gt v (volume_alert self) = true) \/
  (exists status, macd_status result = Some status /\
             status ∈ [GOLDEN_CROSS_ZERO; GOLDEN_CROSS; DEATH_CROSS]) \/
  (exists rsi, rsi_12 result = Some rsi /\
             (float_lt rsi 30%float = true \/ float_gt rsi 70%float = true)) ->
  (should_notify clock result self).1.1 = true /\
  _last_notifications (should_notify clock result self).1.2 !! code result
    = Some (now_record clock, buy_signal result, signal_score result).
Proof.
  intros Htrigger.
  assert (triggered result self = true) as Htriggered.
  { unfold triggered.
    destruct Htrigger as [(v & Hv & Hnz & Hgt) | [(status & Hs & Hin) | (rsi & Hr & Hrsi)]].
    - assert (volume_rule result self = true) as ->
        by (unfold volume_rule; by rewrite Hv, Hnz, Hgt).
      by rewrite orb_true_r.
    - assert (macd_rule result = true) as ->
        by (unfold macd_rule; rewrite Hs; by apply bool_decide_eq_true_2).
      by rewrite orb_true_r.
    - assert (bool_decide (rsi_rule result <> None) = true) as ->.
      { apply bool_decide_eq_true_2. unfold rsi_rule. rewrite Hr.
        destruct Hrsi as [-> | ->]; [done|]. by destruct (float_lt _ _). }
      by rewrite orb_true_r. }
  assert ((should_notify clock result self).1.1 = true) as Hdecision
    by (by rewrite should_notify_decision, Htriggered).
  split; [done|].
  rewrite should_notify_state, Hdecision. unfold recorded. cbn.
  apply lookup_insert_eq.
Qed.

Lemma trigger_always_notifies_witness :
  (should_notify (Examples.at_second 0) Examples.result3 Examples.filter0).1.1
    = true /\
  _last_notifications
    (should_notify (Examples.at_second 0) Examples.result3 Examples.filter0).1.2
    !! "300750"%string
    = Some (0, HOLD, 55).
Proof.
  apply (trigger_always_notifies (Examples.at_second 0) Examples.result3
           Examples.filter0).
  left. exists 4.5%float. repeat split; vm_compute; reflexivity.
Defined.

(** X4. [should_notify] never writes the configuration of the filter, and
    the symbols with a record afterwards are those from before, with the
    symbol of the result added exactly when the call returned [True]. *)
Theorem should_notify_keeps_config clock result self :
  same_config self (should_notify clock result self).1.2 /\
  dom (_last_notifications (should_notify clock result self).1.2)
    = (if (should_notify clock result self).1.1
       then {[code result]} ∪ dom (_last_notifications self)
       else dom (_last_notifications self)).
Proof.
  rewrite should_notify_state.
  destruct ((should_notify clock result self).1.1); [|done].
  split; [done|]. unfold recorded. cbn. apply dom_insert_L.
Qed.

Lemma eligible_spec result self :
  eligible result self = true <->
  notify_threshold self <= signal_score result /\
  BuySignal_name (buy_signal result) ∈ allowed_signal_types self /\
  trend_status result <> CONSOLIDATION.
Proof.
  unfold eligible.
  rewrite !andb_true_iff, !negb_true_iff, Z.ltb_ge, bool_decide_eq_true,
    bool_decide_eq_false.
  tauto.
Qed.

(** X5. The decision of [should_notify], in full. It returns [True] exactly
    when one of rules 1 to 4 applies, or when the score reaches the
    threshold, the signal is in the allow-list, the trend is not
    CONSOLIDATION, the call is not a duplicate inside the minimum interval,
    and it is not a HOLD or WAIT whose score moved by less than 15 against
    the record. Whether the signal reversed against the record plays no
    part. *)
Theorem should_notify_decision_formula clock result self :
  (should_notify clock result self).1.1 = true <->
  triggered result self = true \/
  ((notify_threshold self <= signal_score result /\
    BuySignal_name (buy_signal result) ∈ allowed_signal_types self /\
    trend_status result <> CONSOLIDATION) /\
   duplicate_rule (now_dedup clock) result self = false /\
   hold_wait_rule result self = false).
Proof.
  rewrite should_notify_decision, orb_true_iff, !andb_true_iff,
    !negb_true_iff, eligible_spec.
  tauto.
Qed.

(** X6. For a symbol that has no record the decision looks at the result
    and the configuration alone: [should_notify] returns [True] exactly when
    one of rules 1 to 4 applies, or the score reaches the threshold, the
    signal is in the allow-list and the trend is not CONSOLIDATION. *)
Theorem first_notification_decision clock result self :
  _last_notifications self !! code result = None ->
  ((should_notify clock result self).1.1 = true <->
   triggered result self = true \/
   (notify_threshold self <= signal_score result /\
    BuySignal_name (buy_signal result) ∈ allowed_signal_types self /\
    trend_status result <> CONSOLIDATION)).
Proof.
  intros Hnone.
  destruct (no_record_rules (now_dedup clock) result self Hnone)
    as (Hdup & Hhold & _).
  rewrite should_notify_decision, Hdup, Hhold, !andb_true_r, orb_true_iff,
    eligible_spec.
  tauto.
Qed.

Lemma first_notification_decision_witness :
  (should_notify (Examples.at_second 0) Examples.buy70 Examples.filter0).1.1 = true.
Proof.
  apply (first_notification_decision (Examples.at_second 0) Examples.buy70
           Examples.filter0).
  - reflexivity.
  - right. split; [|split].
    + vm_compute. discriminate.
    + apply (bool_decide_eq_true_1 _). vm_compute. reflexivity.
    + discriminate.
Defined.

(** X7. [clear_cache] forgets every record and keeps the configuration:
    afterwards no symbol has a record, [get_stats] counts no symbol, and the
    next decision for any result is the one for a symbol never seen, however
    recently the same result was notified. *)
Theorem clear_cache_forgets self clock result :
  _last_notifications (clear_cache self).1.2 = ∅ /\
  same_config self (clear_cache self).1.2 /\
  Stats.cached_stocks (get_stats (clear_cache self).1.2).1.1 = 0 /\
  (should_notify clock result (clear_cache self).1.2).1.1
    = triggered result self || eligible result self.
Proof.
  split; [done|]. split; [done|]. split; [done|].
  destruct (no_record_rules (now_dedup clock) result (clear_cache self).1.2)
    as (Hdup & Hhold & _); [apply lookup_empty|].
  rewrite should_notify_decision, Hdup, Hhold, !andb_true_r. done.
Qed.

(** X8. Once the minimum interval has elapsed, a result that was notified is
    notified again when it comes back unchanged, unless its signal is HOLD
    or WAIT. *)
Theorem notified_again_after_interval clock1 clock2 result self :
  (should_notify clock1 result self).1.1 = true ->
  Qle (inject_Z (min_notify_interval self))
      (total_seconds (datetime_sub (now_dedup clock2) (now_record clock1))) ->
  buy_signal result ∉ [HOLD; WAIT] ->
  (should_notify clock2 result (should_notify clock1 result self).1.2).1.1 = true.
Proof.
  intros Hfirst Helapsed Hneutral.
  rewrite should_notify_state, Hfirst.
  rewrite should_notify_decision in Hfirst |- *.
  destruct (recorded_rules clock1 result self result) as (_ & -> & ->).
  destruct (triggered result self); [done|]. cbn in Hfirst |- *.
  apply andb_true_iff in Hfirst as [Hfirst _].
  apply andb_true_iff in Hfirst as [-> _]. cbn.
  assert (duplicate_rule (now_dedup clock2) result (recorded clock1 result self)
          = false) as ->.
  { unfold duplicate_rule, recorded. cbn. rewrite lookup_insert_eq.
    by rewrite Qltb_false. }
  unfold hold_wait_rule. by rewrite bool_decide_eq_false_2.
Qed.

Lemma notified_again_after_interval_witness :
  (should_notify (Examples.at_second 1800) Examples.buy70
     (should_notify (Examples.at_second 0) Examples.buy70 Examples.filter0).1.2).1.1
  = true.
Proof.
  apply (notified_again_after_interval (Examples.at_second 0)
           (Examples.at_second 1800) Examples.buy70 Examples.filter0).
  - vm_compute. reflexivity.
  - vm_compute. discriminate.
  - vm_compute. intros Hin. inversion Hin as [| ? ? ? Hin']; subst.
    inversion Hin' as [| ? ? ? Hin'']; subst. inversion Hin''.
Defined.

(** X9. A HOLD or WAIT result to which none of rules 1 to 4 applies is never
    notified while the record of its symbol has a score less than 15 away
    from its own, however long ago that record was stored: the call returns
    [False] and leaves the filter as it is. *)
Theorem hold_wait_stays_silent clock result self last_time last_signal last_score :
  buy_signal result ∈ [HOLD; WAIT] ->
  _last_notifications self !! code result
    = Some (last_time, last_signal, last_score) ->
  Z.abs (signal_score result - last_score) < 15 ->
  triggered result self = false ->
  (should_notify clock result self).1.1 = false /\
  (should_notify clock result self).1.2 = self.
Proof.
  intros Hneutral Hrecord Hscore Htriggered.
  assert (hold_wait_rule result self = true) as Hhold.
  { unfold hold_wait_rule. rewrite bool_decide_eq_true_2 by done.
    unfold NotificationRecord in *. rewrite Hrecord. by apply Z.ltb_lt. }
  assert ((should_notify clock result self).1.1 = false) as Hdecision.
  { rewrite should_notify_decision, Htriggered, Hhold. cbn.
    by rewrite andb_false_r. }
  split; [done|]. by rewrite should_notify_state, Hdecision.
Qed.

Lemma hold_wait_stays_silent_witness :
  (should_notify (Examples.at_second 0) MoreExamples.hold55
     MoreExamples.filter_hold).1.1 = true /\
  (should_notify (Examples.at_second 36000) MoreExamples.hold60
     MoreExamples.after_hold).1.1 = false /\
  (should_notify (Examples.at_second 36000) MoreExamples.hold60
     MoreExamples.after_hold).1.2 = MoreExamples.after_hold.
Proof.
  split; [vm_compute; reflexivity|].
  apply (hold_wait_stays_silent (Examples.at_second 36000) MoreExamples.hold60
           MoreExamples.after_hold 0 HOLD 55).
  - apply (bool_decide_eq_true_1 _). vm_compute. reflexivity.
  - vm_compute. reflexivity.
  - vm_compute. reflexivity.
  - vm_compute. reflexivity.
Defined.

(** X10. [get_stats] changes nothing, and the number of symbols it reports
    grows by one with a call of [should_notify] that returns [True] for a
    symbol without a record; any other call leaves it as it is. The other
    figures it reports are the configuration and never move. *)
Theorem cached_stocks_counts_symbols clock result self :
  (get_stats self).1.2 = self /\
  Stats.cached_stocks (get_stats (should_notify clock result self).1.2).1.1
    = Stats.cached_stocks (get_stats self).1.1
      + (if (should_notify clock result self).1.1
            && bool_decide (_last_notifications self !! code result = None)
         then 1 else 0) /\
  Stats.threshold (get_stats (should_notify clock result self).1.2).1.1
    = Stats.threshold (get_stats self).1.1 /\
  Stats.min_interval (get_stats (should_notify clock result self).1.2).1.1
    = Stats.min_interval (get_stats self).1.1 /\
  Stats.allowed_signals (get_stats (should_notify clock result self).1.2).1.1
    = Stats.allowed_signals (get_stats self).1.1.
Proof.
  split; [done|]. rewrite should_notify_state.
  destruct ((should_notify clock result self).1.1); cbn; [|repeat split; lia].
  split; [|done].
  unfold NotificationRecord in *. rewrite map_size_insert.
  destruct (_ !! _) eqn:Hlookup.
  - rewrite bool_decide_eq_false_2 by done. cbn. lia.
  - rewrite bool_decide_eq_true_2 by done. cbn. lia.
Qed.

End FilterFacts.

(* ===================================================================== *)
(** * Properties of the analysis pipeline *)
(* ===================================================================== *)

Section PipelineFacts.
Import IntradayAnalysisPipeline.

(** The per-symbol analysis returns whatever the collaborators do. *)
Lemma analyze_intraday_returns env code :
  exists result, analyze_intraday env code = Returns result.
Proof.
  unfold analyze_intraday, try_except, Py.bind.
  repeat case_match; eauto.
Qed.

(** A result that comes back carries the symbol it was asked for. *)
Lemma analyze_intraday_code env code result :
  analyze_intraday env code = Returns (Some result) ->
  SignalFilter.code result = code.
Proof.
  unfold analyze_intraday, try_except, Py.bind.
  repeat case_match; intros; simplify_eq; reflexivity.
Qed.

(** C5. The minimum of 20 observations is enforced exactly. When the
    history retrieved for a symbol has fewer than 20 rows the analysis
    returns nothing. When it has 20 rows or more (and the quote was
    retrieved) the length does not reject it: the analysis returns the
    result built from the analyzer's verdict, and nothing only if the
    analyzer raises. *)
Theorem history_minimum_is_twenty env code context raw_data :
  get_analysis_context env code = Returns (Some context) ->
  context !! "raw_data"%string = Some (Some raw_data) ->
  ((length raw_data < 20)%nat -> analyze_intraday env code = Returns None) /\
  ((20 <= length raw_data)%nat ->
   forall realtime_quote,
     get_realtime_quote env code = Returns (Some realtime_quote) ->
     analyze_intraday env code =
       match analyze env (pd_DataFrame raw_data) code with
       | Returns trend_result =>
           Returns (Some (intraday_result env code realtime_quote trend_result))
       | Raises _ => Returns None
       end).
Proof.
  intros Hcontext Hraw. split.
  - intros Hshort.
    unfold analyze_intraday, try_except, Py.bind.
    rewrite Hcontext, Hraw.
    assert ((len (pd_DataFrame raw_data) <? 20) = true) as ->
      by (apply Z.ltb_lt; unfold len, pd_DataFrame; lia).
    repeat case_match; simplify_eq; reflexivity.
  - intros Hlong realtime_quote Hquote.
    unfold analyze_intraday, try_except, Py.bind.
    rewrite Hquote, Hcontext, Hraw.
    assert ((len (pd_DataFrame raw_data) <? 20) = false) as ->
      by (apply Z.ltb_ge; unfold len, pd_DataFrame; lia).
    rewrite bool_decide_eq_false_2
      by (intros ->; unfold Context in Hraw; rewrite lookup_empty in Hraw;
          discriminate).
    rewrite bool_decide_eq_false_2
      by (intros ->; cbn in Hlong; lia).
    destruct (analyze env (pd_DataFrame raw_data) code); reflexivity.
Qed.

Lemma history_minimum_is_twenty_witness :
  analyze_intraday (PipelineExamples.env_rows 19) "600519" = Returns None /\
  analyze_intraday (PipelineExamples.env_rows 20) "600519"
    = Returns (Some (intraday_result (PipelineExamples.env_rows 20) "600519"
                       PipelineExamples.quote0 PipelineExamples.verdict0)).
Proof.
  split.
  - apply (history_minimum_is_twenty (PipelineExamples.env_rows 19) "600519"
             {[ "raw_data"%string := Some (PipelineExamples.rows 19) ]}
             (PipelineExamples.rows 19)).
    + reflexivity.
    + vm_compute. reflexivity.
    + vm_compute. lia.
  - apply (history_minimum_is_twenty (PipelineExamples.env_rows 20) "600519"
             {[ "raw_data"%string := Some (PipelineExamples.rows 20) ]}
             (PipelineExamples.rows 20)).
    + reflexivity.
    + vm_compute. reflexivity.
    + vm_compute. lia.
    + reflexivity.
Defined.

(** C10. For the empty watchlist [run] returns the empty list at once: the
    only thing it does is log the warning. Nothing is submitted to the
    pool, the filter is not consulted, and the pipeline with its filter is
    as before. *)
Theorem run_empty_watchlist env as_completed self :
  run env as_completed self [] = (Returns [], self, [LogEmptyWatchlist]) /\
  signal_filter (run env as_completed self []).1.2 = signal_filter self /\
  (forall code, Submitted code ∉ (run env as_completed self []).2) /\
  (forall result decision,
     Consulted result decision ∉ (run env as_completed self []).2).
Proof.
  repeat split; cbn; intros; rewrite list_elem_of_singleton; discriminate.
Qed.

(** An exception of a collaborator becomes an absent result. *)
Lemma analyze_intraday_collaborator_raises env code e :
  get_realtime_quote env code = Raises e \/
  (exists quote, get_realtime_quote env code = Returns (Some quote) /\
                 get_analysis_context env code = Raises e) \/
  (exists quote context raw_data,
     get_realtime_quote env code = Returns (Some quote) /\
     get_analysis_context env code = Returns (Some context) /\
     context !! "raw_data"%string = Some (Some raw_data) /\
     analyze env (pd_DataFrame raw_data) code = Raises e) ->
  analyze_intraday env code = Returns None.
Proof.
  unfold analyze_intraday, try_except, Py.bind.
  intros [Hq | [(quote & Hq & Hc) | (quote & context & raw_data & Hq & Hc & Hraw & Ha)]].
  - rewrite Hq. reflexivity.
  - rewrite Hq, Hc. reflexivity.
  - rewrite Hq, Hc, Hraw. repeat case_match; simplify_eq; reflexivity.
Qed.

(** What a worker hands back, when it hands back a result, is the result of
    the analysis of its symbol. *)
Lemma _analyze_with_delay_result env self code result :
  _analyze_with_delay env self code = Returns (Some result) ->
  analyze_intraday env code = Returns (Some result).
Proof.
  unfold _analyze_with_delay, Py.bind.
  destruct (time_sleep _); [done | discriminate].
Qed.

(** One pass of the collecting loop, by the three ways the future can end.
    It never raises; the trace only grows. *)
Lemma collect_cases env acc code future_result :
  exists acc',
    collect env acc (code, future_result) = Returns acc' /\
    trace_grows acc acc' /\
    match future_result with
    | Raises e =>
        triggered_results acc' = triggered_results acc /\
        trace acc' = trace acc ++ [LogTaskError code e]
    | Returns None =>
        triggered_results acc' = triggered_results acc /\
        trace acc' = trace acc
    | Returns (Some result) =>
        let out := SignalFilter.should_notify (filter_clock env code) result
                     (filter acc) in
        triggered_results acc'
          = triggered_results acc ++ (if out.1.1 then [result] else []) /\
        trace acc'
          = trace acc ++ Consulted result out.1.1 :: map Filter out.2
              ++ [if out.1.1 then LogTriggered code else LogFiltered code]
    end.
Proof.
  unfold collect, try_except, Py.bind, trace_grows.
  destruct future_result as [[result|] | e].
  - destruct (SignalFilter.should_notify _ _ _) as [[decision filter'] effects].
    destruct decision; cbn; eexists; (split; [reflexivity|]); cbn;
      rewrite ?app_nil_r; eauto.
  - eexists. split; [reflexivity|]. cbn. split; [exists []; by rewrite app_nil_r | done].
  - eexists. split; [reflexivity|]. cbn. eauto.
Qed.

Lemma trace_grows_elem acc acc' event :
  trace_grows acc acc' -> event ∈ trace acc -> event ∈ trace acc'.
Proof. intros [more ->] Hin. apply elem_of_app. by left. Qed.

(** One pass of the loop keeps what holds all along. *)
Lemma collect_sound env self stock_codes acc code future_result acc' :
  code ∈ stock_codes ->
  future_result = _analyze_with_delay env self code ->
  collected_soundly env stock_codes acc ->
  collect env acc (code, future_result) = Returns acc' ->
  collected_soundly env stock_codes acc'.
Proof.
  intros Hcode Hfuture [Hsound Hcomplete] Hcollect.
  destruct (collect_cases env acc code future_result)
    as (acc'' & Heq & Hgrows & Hcase).
  rewrite Heq in Hcollect. injection Hcollect as ->.
  destruct future_result as [[result|] | e].
  - (* a result came back: the filter is consulted *)
    symmetry in Hfuture. apply _analyze_with_delay_result in Hfuture.
    pose proof (analyze_intraday_code _ _ _ Hfuture) as Hc.
    cbv zeta in Hcase. destruct Hcase as [Hres Htrace].
    destruct (SignalFilter.should_notify _ _ _) as [[decision filter'] effects].
    cbn in Hres, Htrace. split.
    + intros r Hr. rewrite Hres in Hr. apply elem_of_app in Hr as [Hr | Hr].
      * destruct (Hsound r Hr) as (? & ? & ?).
        repeat split; try done. by eapply trace_grows_elem.
      * destruct decision; [|by apply not_elem_of_nil in Hr].
        apply list_elem_of_singleton in Hr as ->.
        rewrite Hc. repeat split; try done.
        rewrite Htrace. apply elem_of_app. right. apply elem_of_cons. by left.
    + intros r Hr. rewrite Htrace in Hr. rewrite Hres.
      apply elem_of_app in Hr as [Hr | Hr].
      * apply elem_of_app. left. by apply Hcomplete.
      * apply elem_of_cons in Hr as [Hr | Hr].
        -- injection Hr as -> <-. apply elem_of_app. right.
           by apply list_elem_of_singleton.
        -- apply elem_of_app in Hr as [Hr | Hr].
           ++ apply list_elem_of_fmap in Hr as (? & ? & ?). discriminate.
           ++ apply list_elem_of_singleton in Hr. destruct decision; discriminate.
  - (* the analysis gave nothing *)
    destruct Hcase as [Hres Htrace]. split.
    + intros r Hr. rewrite Hres in Hr. rewrite Htrace. by apply Hsound.
    + intros r Hr. rewrite Htrace in Hr. rewrite Hres. by apply Hcomplete.
  - (* the worker raised *)
    destruct Hcase as [Hres Htrace]. split.
    + intros r Hr. rewrite Hres in Hr.
      destruct (Hsound r Hr) as (? & ? & ?).
      repeat split; try done. by eapply trace_grows_elem.
    + intros r Hr. rewrite Htrace in Hr. rewrite Hres.
      apply elem_of_app in Hr as [Hr | Hr]; [by apply Hcomplete|].
      apply list_elem_of_singleton in Hr. discriminate.
Qed.

(** The whole loop: it returns, keeps what holds all along, and consults the
    filter on every result that came back. *)
Lemma collect_all_sound env self stock_codes futures :
  forall acc,
    (forall code future_result, (code, future_result) ∈ futures ->
       code ∈ stock_codes /\
       future_result = _analyze_with_delay env self code) ->
    collected_soundly env stock_codes acc ->
    exists acc',
      collect_all env acc futures = Returns acc' /\
      collected_soundly env stock_codes acc' /\
      trace_grows acc acc' /\
      (forall code result, (code, Returns (Some result)) ∈ futures ->
         exists decision, Consulted result decision ∈ trace acc').
Proof.
  induction futures as [| [code future_result] rest IH]; intros acc Hfutures Hacc.
  - exists acc. cbn. split; [done|]. split; [done|]. split.
    + exists []. by rewrite app_nil_r.
    + intros ? ? Hin. by apply not_elem_of_nil in Hin.
  - destruct (collect_cases env acc code future_result)
      as (acc1 & Heq & Hgrows1 & Hcase).
    destruct (Hfutures code future_result) as [Hcode Hfuture];
      [apply elem_of_cons; by left|].
    pose proof (collect_sound _ _ _ _ _ _ _ Hcode Hfuture Hacc Heq) as Hacc1.
    destruct (IH acc1) as (acc' & Hrest & Hacc' & Hgrows & Hconsulted); [|done|].
    { intros c fr Hin. apply Hfutures. apply elem_of_cons. by right. }
    exists acc'. cbn [collect_all]. rewrite Heq. cbn [Py.bind]. split; [done|]. split; [done|]. split.
    + destruct Hgrows1 as [more1 H1], Hgrows as [more H2].
      exists (more1 ++ more). by rewrite H2, H1, app_assoc.
    + intros c r Hin. apply elem_of_cons in Hin as [Hin | Hin]; [|by eauto].
      simplify_eq.
      match goal with H : Returns _ = _ |- _ => rewrite <- H in Hcase end.
      cbn beta iota zeta in Hcase. destruct Hcase as [_ Htrace].
      eexists. eapply trace_grows_elem; [done|].
      rewrite Htrace. apply elem_of_app. right. apply elem_of_cons. by left.
Qed.

(** ** Further properties of the pipeline *)

(** X11. The per-symbol analysis gives a result in one case only: the quote
    was retrieved, the context holds a history under [raw_data] with at
    least 20 rows, and the analyzer returned a verdict; the result is then
    the one built from that quote and that verdict. In every other case,
    an absent quote, context or history, a short history, or an exception
    of a collaborator, it gives nothing. *)
Theorem analyze_intraday_success_iff env code result :
  analyze_intraday env code = Returns (Some result) <->
  exists realtime_quote context raw_data trend_result,
    get_realtime_quote env code = Returns (Some realtime_quote) /\
    get_analysis_context env code = Returns (Some context) /\
    context !! "raw_data"%string = Some (Some raw_data) /\
    (20 <= length raw_data)%nat /\
    analyze env (pd_DataFrame raw_data) code = Returns trend_result /\
    result = intraday_result env code realtime_quote trend_result.
Proof.
  unfold analyze_intraday, try_except, Py.bind. split.
  - destruct (get_realtime_quote env code) as [[quote|]|]; try discriminate.
    destruct (get_analysis_context env code) as [[context|]|]; try discriminate.
    case_bool_decide; [discriminate|].
    destruct (context !! "raw_data"%string) as [[raw_data|]|] eqn:Hraw;
      try discriminate.
    case_bool_decide; [discriminate|].
    destruct (len (pd_DataFrame raw_data) <? 20) eqn:Hlen; [discriminate|].
    destruct (analyze env (pd_DataFrame raw_data) code) as [trend_result|] eqn:Ha;
      [|discriminate].
    intros [= <-]. exists quote, context, raw_data, trend_result.
    repeat split; try done.
    apply Z.ltb_ge in Hlen. unfold len, pd_DataFrame in Hlen. lia.
  - intros (quote & context & raw_data & trend_result
            & -> & -> & Hraw & Hlen & Ha & ->).
    rewrite Hraw, Ha.
    rewrite bool_decide_eq_false_2
      by (intros ->; unfold Context in Hraw; rewrite lookup_empty in Hraw;
          discriminate).
    rewrite bool_decide_eq_false_2 by (intros ->; cbn in Hlen; lia).
    assert ((len (pd_DataFrame raw_data) <? 20) = false) as ->
      by (apply Z.ltb_ge; unfold len, pd_DataFrame; lia).
    reflexivity.
Qed.

Lemma handed_back_cons code future_result rest :
  handed_back ((code, future_result) :: rest)
  = match future_result with
    | Returns (Some result) => result :: handed_back rest
    | _ => handed_back rest
    end.
Proof. by destruct future_result as [[result|] | e]. Qed.

Lemma raised_in_cons code future_result rest :
  raised_in ((code, future_result) :: rest)
  = match future_result with
    | Raises e => e :: raised_in rest
    | Returns _ => raised_in rest
    end.
Proof. by destruct future_result as [[result|] | e]. Qed.

(** The collecting loop, by what it keeps: it returns; the results it adds
    and the filter it leaves are those of [filter_results]; and the count
    of successes grows by the number of results handed back. *)
Lemma collect_all_filter_results env futures :
  forall acc,
    exists acc',
      collect_all env acc futures = Returns acc' /\
      triggered_results acc'
        = triggered_results acc ++ (filter_results env (filter acc) futures).1 /\
      filter acc' = (filter_results env (filter acc) futures).2 /\
      analyzed_count acc' - failed_count acc'
        = analyzed_count acc - failed_count acc
          + Z.of_nat (length (handed_back futures))
          - Z.of_nat (length (raised_in futures)) /\
      trace_grows acc acc'.
Proof.
  induction futures as [| [code future_result] rest IH]; intros acc.
  - exists acc. unfold handed_back, raised_in. cbn. rewrite app_nil_r.
    split_and!; [done | done | done | lia |]. exists []. by rewrite app_nil_r.
  - destruct (collect_cases env acc code future_result)
      as (acc1 & Heq & Hgrows1 & _).
    cbn [collect_all]. rewrite Heq. cbn [Py.bind].
    destruct (IH acc1) as (acc' & -> & Hkept & Hfilter & Hcount & Hgrows).
    exists acc'. split; [done|].
    assert (trace_grows acc acc') as Hg.
    { destruct Hgrows1 as [more1 H1], Hgrows as [more H2].
      exists (more1 ++ more). by rewrite H2, H1, app_assoc. }
    unfold collect, try_except, Py.bind in Heq.
    rewrite handed_back_cons, raised_in_cons.
    destruct future_result as [[result|] | e]; cbn [filter_results length].
    + cbn -[SignalFilter.should_notify] in Heq |- *.
      destruct (SignalFilter.should_notify (filter_clock env code) result
                  (filter acc)) as [[decision filter'] effects] eqn:Hout.
      cbn [fst snd].
      destruct (filter_results env filter' rest) as [kept f'] eqn:Hrest.
      destruct decision; injection Heq as <-;
        cbn [analyzed_count failed_count] in Hcount; cbn in Hkept, Hfilter;
        rewrite Hrest in Hkept, Hfilter; cbn in Hkept, Hfilter |- *.
      * rewrite Hkept, <- app_assoc. split_and!; try done. lia.
      * rewrite Hkept. split_and!; try done. lia.
    + injection Heq as <-. cbn [analyzed_count failed_count] in Hcount.
      cbn in Hkept, Hfilter |- *.
      split_and!; try done. lia.
    + injection Heq as <-. cbn [analyzed_count failed_count] in Hcount.
      cbn in Hkept, Hfilter |- *.
      split_and!; try done. lia.
Qed.

(** What [filter_results] keeps are results handed back, in their order. *)
Lemma filter_results_sublist env futures :
  forall f, (filter_results env f futures).1 `sublist_of` handed_back futures.
Proof.
  induction futures as [| [code future_result] rest IH]; intros f.
  - constructor.
  - rewrite handed_back_cons.
    destruct future_result as [[result|] | e]; cbn [filter_results]; [|done..].
    cbv zeta.
    specialize (IH (SignalFilter.should_notify (filter_clock env code) result f).1.2).
    destruct (filter_results env _ rest) as [kept f'].
    destruct ((SignalFilter.should_notify _ _ _).1.1); cbn in IH |- *.
    + by constructor.
    + by constructor.
Qed.

(** [filter_results] does not write the configuration. *)
Lemma filter_results_config env futures :
  forall f, SignalFilter.same_config f (filter_results env f futures).2.
Proof.
  induction futures as [| [code future_result] rest IH]; intros f.
  - done.
  - destruct future_result as [[result|] | e]; cbn [filter_results];
      [|by apply IH..].
    cbv zeta.
    destruct (should_notify_frame (filter_clock env code) result f)
      as [(H1 & H2 & H3 & H4) _].
    specialize (IH (SignalFilter.should_notify (filter_clock env code) result f).1.2).
    destruct (filter_results env _ rest) as [kept f']. cbn in IH |- *.
    destruct IH as (H1' & H2' & H3' & H4').
    unfold SignalFilter.same_config. by rewrite H1', H2', H3', H4'.
Qed.

(** [filter_results] does not write the record of a symbol for which no
    result was handed back. *)
Lemma filter_results_frame env futures (other : string) :
  forall f,
    (forall code result, (code, Returns (Some result)) ∈ futures ->
       SignalFilter.code result <> other) ->
    SignalFilter._last_notifications (filter_results env f futures).2 !! other
    = SignalFilter._last_notifications f !! other.
Proof.
  induction futures as [| [code future_result] rest IH]; intros f Hother.
  - done.
  - assert (forall code result, (code, Returns (Some result)) ∈ rest ->
              SignalFilter.code result <> other) as Hrest
      by (intros c r Hin; apply (Hother c); apply elem_of_cons; by right).
    destruct future_result as [[result|] | e]; cbn [filter_results];
      [|by apply IH..].
    cbv zeta.
    destruct (should_notify_frame (filter_clock env code) result f)
      as [_ Hframe].
    specialize (IH (SignalFilter.should_notify (filter_clock env code) result f).1.2
                  Hrest).
    destruct (filter_results env _ rest) as [kept f']. cbn in IH |- *.
    rewrite IH. apply Hframe. intros ->.
    by apply (Hother code result); [apply elem_of_cons; left|].
Qed.

(** When no result was handed back, nothing is kept and the filter is not
    touched. *)
Lemma filter_results_nothing env futures :
  forall f, handed_back futures = [] -> filter_results env f futures = ([], f).
Proof.
  induction futures as [| [code future_result] rest IH]; intros f Hnone.
  - done.
  - rewrite handed_back_cons in Hnone.
    destruct future_result as [[result|] | e]; [discriminate|..];
      cbn [filter_results]; by apply IH.
Qed.

Lemma set_signal_filter_same self :
  set_signal_filter (signal_filter self) self = self.
Proof. by destruct self. Qed.

Lemma ThreadPoolExecutor_positive n :
  0 < n -> ThreadPoolExecutor n = Returns tt.
Proof.
  intros Hpos. unfold ThreadPoolExecutor.
  by rewrite (proj2 (Z.leb_gt n 0)) by lia.
Qed.

(** With a width of 0 or less and a watchlist that is not empty, [run]
    raises what the constructor of the pool raises, before anything is
    submitted; the pipeline is as it was. *)
Lemma run_bad_width env as_completed self stock_codes :
  stock_codes <> [] ->
  max_workers self <= 0 ->
  run env as_completed self stock_codes
  = (Raises (Exception "ValueError" "max_workers must be greater than 0"),
     self, [LogStart (length stock_codes)]).
Proof.
  intros Hnonempty Hwidth. unfold run, ThreadPoolExecutor.
  rewrite bool_decide_eq_false_2 by done.
  by rewrite (proj2 (Z.leb_le (max_workers self) 0)) by lia.
Qed.

(** [run], by what it keeps, when the pool can be built. *)
Lemma run_filter_results env as_completed self stock_codes :
  (forall futures, as_completed futures ≡ₚ futures) ->
  stock_codes = [] \/ 0 < max_workers self ->
  let futures := as_completed (submit_all env self stock_codes) in
  (run env as_completed self stock_codes).1.1
    = Returns (filter_results env (signal_filter self) futures).1 /\
  (run env as_completed self stock_codes).1.2
    = set_signal_filter (filter_results env (signal_filter self) futures).2 self /\
  (stock_codes <> [] ->
   last (run env as_completed self stock_codes).2
     = Some (LogSummary
               (Z.of_nat (length (handed_back futures))
                - Z.of_nat (length (raised_in futures)))
               (Z.of_nat (length stock_codes))
               (Z.of_nat (length (filter_results env (signal_filter self)
                                    futures).1)))).
Proof.
  intros Hperm Hwidth futures. unfold run. case_bool_decide as Hempty.
  - subst. subst futures. change (submit_all env self []) with (@nil Future).
    assert (as_completed [] = []) as -> by (by apply Permutation_nil_r).
    cbn. by rewrite set_signal_filter_same.
  - destruct Hwidth as [-> | Hpos]; [done|].
    rewrite (ThreadPoolExecutor_positive _ Hpos).
    fold (submit_all env self stock_codes). fold futures.
    set (acc0 := mkAcc _ _ _ _ _).
    destruct (collect_all_filter_results env futures acc0)
      as (acc & -> & Hkept & Hfilter & Hcount & _).
    cbn in Hkept, Hfilter, Hcount. cbn [fst snd].
    rewrite Hfilter, Hkept. split_and!; [done | done |].
    intros _. rewrite last_snoc. do 2 f_equal. lia.
Qed.

(** What [filter_results] keeps was accepted by [should_notify], in the
    state the filter was in when the result came before it. *)
Lemma filter_results_accepted env futures :
  forall f result,
    result ∈ (filter_results env f futures).1 ->
    exists code f',
      (code, Returns (Some result)) ∈ futures /\
      (SignalFilter.should_notify (filter_clock env code) result f').1.1 = true.
Proof.
  induction futures as [| [code future_result] rest IH]; intros f result Hin.
  - by apply not_elem_of_nil in Hin.
  - destruct future_result as [[r|] | e]; cbn [filter_results] in Hin.
    + cbv zeta in Hin.
      specialize (IH (SignalFilter.should_notify (filter_clock env code) r f).1.2
                     result).
      destruct (filter_results env _ rest) as [kept f'']. cbn [fst] in IH, Hin.
      destruct ((SignalFilter.should_notify (filter_clock env code) r f).1.1)
        eqn:Hdecision; cbn [fst] in Hin.
      * apply elem_of_cons in Hin as [-> | Hin].
        -- exists code, f. split; [apply elem_of_cons; by left | done].
        -- destruct (IH Hin) as (c & f' & Hfut & Hacc).
           exists c, f'. split; [apply elem_of_cons; by right | done].
      * destruct (IH Hin) as (c & f' & Hfut & Hacc).
        exists c, f'. split; [apply elem_of_cons; by right | done].
    + destruct (IH f result Hin) as (c & f' & Hfut & Hacc).
      exists c, f'. split; [apply elem_of_cons; by right | done].
    + destruct (IH f result Hin) as (c & f' & Hfut & Hacc).
      exists c, f'. split; [apply elem_of_cons; by right | done].
Qed.

Lemma elem_of_submit_all env self stock_codes code future_result :
  (code, future_result) ∈ submit_all env self stock_codes <->
  code ∈ stock_codes /\ future_result = _analyze_with_delay env self code.
Proof.
  unfold submit_all. rewrite list_elem_of_fmap. split.
  - intros (c & Heq & Hc). by simplify_eq.
  - intros [Hc ->]. by exists code.
Qed.

Lemma handed_back_raised_length futures :
  (length (handed_back futures) + length (raised_in futures) <= length futures)%nat.
Proof.
  induction futures as [| [code future_result] rest IH]; [done|].
  rewrite handed_back_cons, raised_in_cons.
  destruct future_result as [[result|] | e]; cbn; lia.
Qed.

(** X12. Once the pool can be built (its width is positive, or the
    watchlist is empty and no pool is built),
    [run] is the sequential filtering of what the workers hand back:
    in the order in which the futures complete, each result handed back is
    put before [should_notify] with the filter as the previous call left it;
    the results returned are the accepted ones in that order, and the
    filter of the pipeline afterwards is the one the last call left. The
    counters, the log and the exceptions of workers have no part in it. *)
Theorem run_is_sequential_filtering env as_completed self stock_codes :
  (forall futures, as_completed futures ≡ₚ futures) ->
  stock_codes = [] \/ 0 < max_workers self ->
  (run env as_completed self stock_codes).1.1
    = Returns (filter_results env (signal_filter self)
                 (as_completed (submit_all env self stock_codes))).1 /\
  signal_filter (run env as_completed self stock_codes).1.2
    = (filter_results env (signal_filter self)
         (as_completed (submit_all env self stock_codes))).2.
Proof.
  intros Hperm Hwidth.
  destruct (run_filter_results env as_completed self stock_codes Hperm Hwidth)
    as (-> & -> & _).
  done.
Qed.

Lemma run_is_sequential_filtering_witness :
  (run PipelineExamples.env_failing reverse PipelineExamples.pipeline0
       PipelineExamples.watchlist).1.1
  = Returns (filter_results PipelineExamples.env_failing Examples.filter0
               (reverse (submit_all PipelineExamples.env_failing
                           PipelineExamples.pipeline0
                           PipelineExamples.watchlist))).1.
Proof.
  apply (run_is_sequential_filtering PipelineExamples.env_failing reverse
           PipelineExamples.pipeline0 PipelineExamples.watchlist).
  - intros futures. apply reverse_Permutation.
  - right. reflexivity.
Defined.

(** X13. Once the pool can be built (positive width, or an empty
    watchlist), the results [run] returns are among the results the workers
    handed back and come in the order in which their futures completed;
    there are at most as many as symbols in the watchlist. *)
Theorem run_results_in_completion_order env as_completed self stock_codes :
  (forall futures, as_completed futures ≡ₚ futures) ->
  stock_codes = [] \/ 0 < max_workers self ->
  exists results,
    (run env as_completed self stock_codes).1.1 = Returns results /\
    results `sublist_of`
      handed_back (as_completed (submit_all env self stock_codes)) /\
    (length results <= length stock_codes)%nat.
Proof.
  intros Hperm Hwidth.
  destruct (run_filter_results env as_completed self stock_codes Hperm Hwidth)
    as (-> & _ & _).
  eexists. split; [done|].
  pose proof (filter_results_sublist env
                (as_completed (submit_all env self stock_codes))
                (signal_filter self)) as Hsub.
  split; [done|].
  apply sublist_length in Hsub.
  pose proof (handed_back_raised_length
                (as_completed (submit_all env self stock_codes))) as Hlen.
  rewrite (Permutation_length (Hperm (submit_all env self stock_codes))) in Hlen.
  unfold submit_all in Hlen at 3. rewrite length_map in Hlen. lia.
Qed.

Lemma run_results_in_completion_order_witness :
  exists results,
    (run PipelineExamples.env_failing reverse PipelineExamples.pipeline0
         PipelineExamples.watchlist).1.1 = Returns results /\
    results `sublist_of`
      handed_back (reverse (submit_all PipelineExamples.env_failing
                              PipelineExamples.pipeline0
                              PipelineExamples.watchlist)) /\
    (length results <= 5)%nat.
Proof.
  apply (run_results_in_completion_order PipelineExamples.env_failing reverse
           PipelineExamples.pipeline0 PipelineExamples.watchlist).
  - intros futures. apply reverse_Permutation.
  - right. reflexivity.
Defined.

(** X14. [run] writes nothing but the records of the symbols of its
    watchlist: the record of any other symbol, the configuration of the
    filter, the width of the pool and the delay bounds are afterwards what
    they were. *)
Theorem run_leaves_other_symbols env as_completed self stock_codes :
  (forall futures, as_completed futures ≡ₚ futures) ->
  SignalFilter.same_config (signal_filter self)
    (signal_filter (run env as_completed self stock_codes).1.2) /\
  max_workers (run env as_completed self stock_codes).1.2 = max_workers self /\
  request_delay (run env as_completed self stock_codes).1.2 = request_delay self /\
  forall other : string, other ∉ stock_codes ->
    SignalFilter._last_notifications
      (signal_filter (run env as_completed self stock_codes).1.2) !! other
    = SignalFilter._last_notifications (signal_filter self) !! other.
Proof.
  intros Hperm.
  destruct (decide (stock_codes = [] \/ 0 < max_workers self)) as [Hwidth | Hbad].
  2: { rewrite run_bad_width by (try lia; intros ->; apply Hbad; by left).
       by split_and!. }
  destruct (run_filter_results env as_completed self stock_codes Hperm Hwidth)
    as (_ & -> & _).
  cbn [set_signal_filter signal_filter max_workers request_delay].
  split; [apply filter_results_config|]. split; [done|]. split; [done|].
  intros other Hout. apply filter_results_frame.
  intros code result Hfut Hcode. rewrite Hperm in Hfut.
  apply elem_of_submit_all in Hfut as [Hc Hfut]. symmetry in Hfut.
  apply _analyze_with_delay_result, analyze_intraday_code in Hfut.
  congruence.
Qed.

Lemma run_leaves_other_symbols_witness :
  SignalFilter._last_notifications
    (signal_filter (run PipelineExamples.env_failing reverse
                        (mkPipeline Examples.after_buy 3 (2%float, 3%float))
                        ["601318"%string]).1.2) !! "600519"%string
  = Some (0, BUY, 70).
Proof.
  destruct (run_leaves_other_symbols PipelineExamples.env_failing reverse
              (mkPipeline Examples.after_buy 3 (2%float, 3%float))
              ["601318"%string])
    as (_ & _ & _ & Hother).
  - intros futures. apply reverse_Permutation.
  - eapply eq_trans; [apply (Hother "600519"%string)|].
    + intros Hin. apply list_elem_of_singleton in Hin. discriminate.
    + vm_compute. reflexivity.
Defined.

(** X15. The summary line that ends a run over a watchlist that is not
    empty, with a pool of positive width: the total is the length of the
    watchlist, the number of
    triggered signals is the number of results returned, and the number
    reported as succeeded is the number of results that workers handed
    back less the number of workers that raised (a raising worker is
    counted as failed without having been counted as analysed). When no
    worker raised it is the number of results handed back, between the
    number of results returned and the total. *)
Theorem run_summary_counts env as_completed self stock_codes :
  (forall futures, as_completed futures ≡ₚ futures) ->
  stock_codes <> [] ->
  0 < max_workers self ->
  exists results,
    (run env as_completed self stock_codes).1.1 = Returns results /\
    last (run env as_completed self stock_codes).2
      = Some (LogSummary
                (Z.of_nat (length (handed_back (submit_all env self stock_codes)))
                 - Z.of_nat (length (raised_in (submit_all env self stock_codes))))
                (Z.of_nat (length stock_codes))
                (Z.of_nat (length results))) /\
    (length results
     <= length (handed_back (submit_all env self stock_codes)))%nat /\
    (length (handed_back (submit_all env self stock_codes))
     + length (raised_in (submit_all env self stock_codes))
     <= length stock_codes)%nat.
Proof.
  intros Hperm Hnonempty Hwidth.
  destruct (run_filter_results env as_completed self stock_codes Hperm
              (or_intror Hwidth))
    as (-> & _ & Hlast).
  eexists. split; [done|].
  assert (length (handed_back (as_completed (submit_all env self stock_codes)))
          = length (handed_back (submit_all env self stock_codes))) as Hhanded
    by (unfold handed_back; by rewrite Hperm).
  assert (length (raised_in (as_completed (submit_all env self stock_codes)))
          = length (raised_in (submit_all env self stock_codes))) as Hraised
    by (unfold raised_in; by rewrite Hperm).
  rewrite (Hlast Hnonempty), Hhanded, Hraised. split; [done|]. split.
  - rewrite <- Hhanded. apply sublist_length, filter_results_sublist.
  - pose proof (handed_back_raised_length (submit_all env self stock_codes)) as Hlen.
    unfold submit_all in Hlen at 3. by rewrite length_map in Hlen.
Qed.

Lemma run_summary_counts_witness :
  last (run PipelineExamples.env_failing reverse PipelineExamples.pipeline0
            PipelineExamples.watchlist).2
  = Some (LogSummary 2 5 2).
Proof.
  destruct (run_summary_counts PipelineExamples.env_failing reverse
              PipelineExamples.pipeline0 PipelineExamples.watchlist)
    as (results & Hresults & Hlast & _).
  - intros futures. apply reverse_Permutation.
  - discriminate.
  - reflexivity.
  - rewrite Hlast. vm_compute in Hresults. injection Hresults as <-.
    vm_compute. reflexivity.
Defined.

(** X16. When no worker hands back a result, because every analysis gave
    nothing or every worker raised, and the pool can be built (positive
    width, or an empty watchlist), [run] returns the empty list and the
    pipeline with its filter is afterwards what it was. *)
Theorem run_without_results_changes_nothing env as_completed self stock_codes :
  (forall futures, as_completed futures ≡ₚ futures) ->
  stock_codes = [] \/ 0 < max_workers self ->
  (forall code result, code ∈ stock_codes ->
     _analyze_with_delay env self code <> Returns (Some result)) ->
  (run env as_completed self stock_codes).1.1 = Returns [] /\
  (run env as_completed self stock_codes).1.2 = self.
Proof.
  intros Hperm Hwidth Hnone.
  destruct (run_filter_results env as_completed self stock_codes Hperm Hwidth)
    as (-> & -> & _).
  assert (handed_back (as_completed (submit_all env self stock_codes)) = [])
    as Hempty.
  { destruct (handed_back _) as [| result rest] eqn:Hhanded; [done|].
    assert (result ∈ handed_back (as_completed (submit_all env self stock_codes)))
      as Hin by (rewrite Hhanded; apply elem_of_cons; by left).
    unfold handed_back in Hin.
    apply list_elem_of_omap in Hin as ([code fr] & Hfut & Hsome).
    rewrite Hperm in Hfut. apply elem_of_submit_all in Hfut as [Hc ->].
    cbn in Hsome. exfalso. apply (Hnone code result Hc).
    by destruct (_analyze_with_delay env self code) as [[r|] | e]; simplify_eq. }
  rewrite (filter_results_nothing _ _ _ Hempty). cbn.
  by rewrite set_signal_filter_same.
Qed.

Lemma run_without_results_changes_nothing_witness :
  (run MoreExamples.env_offline reverse PipelineExamples.pipeline0
       PipelineExamples.watchlist).1.1 = Returns [] /\
  (run MoreExamples.env_offline reverse PipelineExamples.pipeline0
       PipelineExamples.watchlist).1.2 = PipelineExamples.pipeline0.
Proof.
  apply (run_without_results_changes_nothing MoreExamples.env_offline reverse
           PipelineExamples.pipeline0 PipelineExamples.watchlist).
  - intros futures. apply reverse_Permutation.
  - right. reflexivity.
  - intros code result _. vm_compute. discriminate.
Defined.

(** The trace of a run that returns: what was retained was put before the
    filter and accepted, and what was handed back was put before it. *)
Lemma run_consults_the_filter env as_completed self stock_codes :
  (forall futures, as_completed futures ≡ₚ futures) ->
  stock_codes = [] \/ 0 < max_workers self ->
  exists results,
    (run env as_completed self stock_codes).1.1 = Returns results /\
    (forall result, result ∈ results ->
       SignalFilter.code result ∈ stock_codes /\
       analyze_intraday env (SignalFilter.code result) = Returns (Some result) /\
       Consulted result true ∈ (run env as_completed self stock_codes).2) /\
    (forall result,
       Consulted result true ∈ (run env as_completed self stock_codes).2 ->
       result ∈ results) /\
    (forall code result, code ∈ stock_codes ->
       _analyze_with_delay env self code = Returns (Some result) ->
       exists decision,
         Consulted result decision ∈ (run env as_completed self stock_codes).2).
Proof.
  intros Hperm Hwidth. unfold run. case_bool_decide as Hempty.
  - subst. exists []. cbn. split; [done|]. split; [|split].
    + intros ? Hin. by apply not_elem_of_nil in Hin.
    + intros ? Hin. apply list_elem_of_singleton in Hin. discriminate.
    + intros ? ? Hin. by apply not_elem_of_nil in Hin.
  - destruct Hwidth as [-> | Hpos]; [done|].
    rewrite (ThreadPoolExecutor_positive _ Hpos).
    set (futures := map (fun code => (code, _analyze_with_delay env self code))
                        stock_codes).
    set (acc0 := mkAcc [] 0 0 (signal_filter self)
                       (LogStart (length stock_codes) :: map Submitted stock_codes)).
    destruct (collect_all_sound env self stock_codes (as_completed futures) acc0)
      as (acc & Hall & [Hsound Hcomplete] & _ & Hconsulted).
    { intros code fr Hin. rewrite Hperm in Hin.
      apply list_elem_of_fmap in Hin as (c & Heq & Hc). by simplify_eq. }
    { split.
      - intros ? Hin. by apply not_elem_of_nil in Hin.
      - intros r Hin. cbn in Hin. apply elem_of_cons in Hin as [? | Hin]; [done|].
        apply list_elem_of_fmap in Hin as (? & ? & ?). discriminate. }
    rewrite Hall. cbn. exists (triggered_results acc).
    split; [done|]. split; [|split].
    + intros r Hr. destruct (Hsound r Hr) as (? & ? & ?).
      repeat split; try done. apply elem_of_app. by left.
    + intros r Hr. apply elem_of_app in Hr as [Hr | Hr]; [by apply Hcomplete|].
      apply list_elem_of_singleton in Hr. discriminate.
    + intros code r Hcode Hfut.
      destruct (Hconsulted code r) as [decision Hin].
      { rewrite Hperm. apply list_elem_of_fmap. exists code.
        by rewrite Hfut. }
      exists decision. apply elem_of_app. by left.
Qed.

(** C6 as stated fails: with a pool width of 0 in the configuration and a
    watchlist that is not empty, [run] raises the [ValueError] of the
    constructor of the pool, although every collaborator answers. *)
Lemma run_raises_for_width_zero :
  (run (PipelineExamples.env_rows 30) reverse PipelineExamples.pipeline_width0
       PipelineExamples.watchlist).1.1
  = Raises (Exception "ValueError" "max_workers must be greater than 0").
Proof. vm_compute. reflexivity. Qed.

(** C6, amended. When the pool can be built (its width [max_workers] is
    positive, or the watchlist is empty and no pool is built), [run] never
    raises, whatever the collaborators do (each may raise for any symbol)
    and in whatever order the workers complete. The list it returns is what
    [should_notify] accepted when the results handed back were put before
    it one after the other in completion order: every result in it is the
    result of the analysis of a symbol of the watchlist, [should_notify]
    returned [True] for it, and every result for which it did is in the
    list. A symbol whose analysis failed yields no result; and the failures
    stop nothing: every result that a worker handed back was put before the
    filter. *)
Theorem run_never_raises env as_completed self stock_codes :
  (forall futures, as_completed futures ≡ₚ futures) ->
  stock_codes = [] \/ 0 < max_workers self ->
  exists results,
    (run env as_completed self stock_codes).1.1 = Returns results /\
    results
      = (filter_results env (signal_filter self)
           (as_completed (submit_all env self stock_codes))).1 /\
    (forall result, result ∈ results ->
       SignalFilter.code result ∈ stock_codes /\
       analyze_intraday env (SignalFilter.code result) = Returns (Some result) /\
       (exists f,
          (SignalFilter.should_notify
             (filter_clock env (SignalFilter.code result)) result f).1.1 = true) /\
       Consulted result true ∈ (run env as_completed self stock_codes).2) /\
    (forall result,
       Consulted result true ∈ (run env as_completed self stock_codes).2 ->
       result ∈ results) /\
    (forall code, analyze_intraday env code = Returns None ->
       forall result, result ∈ results -> SignalFilter.code result <> code) /\
    (forall code result, code ∈ stock_codes ->
       _analyze_with_delay env self code = Returns (Some result) ->
       exists decision,
         Consulted result decision ∈ (run env as_completed self stock_codes).2).
Proof.
  intros Hperm Hwidth.
  destruct (run_consults_the_filter env as_completed self stock_codes Hperm Hwidth)
    as (results & Hreturns & Hsound & Hcomplete & Hconsulted).
  destruct (run_filter_results env as_completed self stock_codes Hperm Hwidth)
    as (Hfold & _ & _).
  rewrite Hreturns in Hfold. injection Hfold as Hfold.
  exists results. split; [done|]. split; [done|]. split; [|split; [|split]].
  - intros result Hin. destruct (Hsound result Hin) as (Hcode & Hanalysis & Htrace).
    split_and!; try done.
    rewrite Hfold in Hin.
    apply filter_results_accepted in Hin as (code & f & Hfuture & Haccepted).
    rewrite Hperm in Hfuture.
    apply elem_of_submit_all in Hfuture as [_ Hfuture]. symmetry in Hfuture.
    apply _analyze_with_delay_result, analyze_intraday_code in Hfuture.
    exists f. by rewrite Hfuture.
  - done.
  - intros code Hfail result Hin Hcode.
    destruct (Hsound result Hin) as (_ & Hanalysis & _).
    rewrite Hcode, Hfail in Hanalysis. discriminate.
  - done.
Qed.

Lemma run_never_raises_witness :
  exists results,
    (run PipelineExamples.env_failing reverse PipelineExamples.pipeline0
         PipelineExamples.watchlist).1.1 = Returns results /\
    results
      = (filter_results PipelineExamples.env_failing Examples.filter0
           (reverse (submit_all PipelineExamples.env_failing
                       PipelineExamples.pipeline0
                       PipelineExamples.watchlist))).1 /\
    (forall result, result ∈ results ->
       SignalFilter.code result <> "000001"%string) /\
    (forall result, result ∈ results ->
       SignalFilter.code result <> "300750"%string) /\
    (forall result, result ∈ results ->
       SignalFilter.code result <> "002594"%string).
Proof.
  destruct (run_never_raises PipelineExamples.env_failing reverse
              PipelineExamples.pipeline0 PipelineExamples.watchlist)
    as (results & Hreturns & Hfold & _ & _ & Hfailed & _).
  - intros futures. apply reverse_Permutation.
  - right. reflexivity.
  - exists results. split; [exact Hreturns|]. split; [exact Hfold|].
    repeat split; apply Hfailed; vm_compute; reflexivity.
Defined.

End PipelineFacts.

(* ===================================================================== *)
(** * Properties of the trading scheduler *)
(* ===================================================================== *)

Section SchedulerFacts.
Import IntradayScheduler.
Context {World : Type}.
Implicit Types (self : t World) (w : World) (now : datetime).

Lemma weekday_range now : 0 <= weekday now < 7.
Proof. unfold weekday, date_weekday. apply Z.mod_pos_bound. lia. Qed.

(** The trading-day check returns in every mode. *)
Lemma is_trading_day_returns self now date :
  exists verdict, is_trading_day self now date = Returns verdict.
Proof.
  unfold is_trading_day, try_except, Py.bind.
  repeat case_match; eauto.
Qed.

(** C8. In advanced mode [is_trading_day] never raises. When the lookup in
    the holiday calendar raises, the verdict is the weekday rule: [True]
    exactly when the weekday of the date is Monday (0) to Friday (4). When
    the lookup returns, the verdict is what it returned. *)
Theorem is_trading_day_advanced_never_raises self now date :
  holiday_detection self = "advanced"%string ->
  exists verdict,
    is_trading_day self now date = Returns verdict /\
    (forall calendar e,
       _chinese_calendar self = Some calendar ->
       is_workday calendar (date_of (default now date)) = Raises e ->
       (verdict = true <-> 0 <= weekday (default now date) <= 4)) /\
    (forall calendar workday,
       _chinese_calendar self = Some calendar ->
       is_workday calendar (date_of (default now date)) = Returns workday ->
       verdict = workday).
Proof.
  intros Hmode. unfold is_trading_day. rewrite Hmode. cbn.
  replace (match date with Some d => d | None => now end)
    with (default now date) by (by destruct date).
  destruct (_chinese_calendar self) as [calendar|] eqn:Hcal.
  - destruct (is_workday calendar (date_of (default now date)))
      as [workday | e] eqn:Hlookup; cbn.
    + exists workday. split; [done|]. split.
      * intros ? ? [= <-] Hraises. congruence.
      * intros ? ? [= <-] Hreturns. congruence.
    + eexists. split; [done|]. split.
      * intros _ _ _ _. pose proof (weekday_range (default now date)).
        rewrite Z.ltb_lt. lia.
      * intros ? ? [= <-] Hreturns. congruence.
  - eexists. split; [done|]. split; intros; discriminate.
Qed.

Lemma task_calls_app (tr1 tr2 : list Event) :
  task_calls (tr1 ++ tr2) = (task_calls tr1 + task_calls tr2)%nat.
Proof. unfold task_calls. by rewrite List.filter_app, length_app. Qed.

Lemma polls_app (tr1 tr2 : list Event) :
  polls (tr1 ++ tr2) = (polls tr1 + polls tr2)%nat.
Proof. unfold polls. by rewrite List.filter_app, length_app. Qed.

(** The safe runner, by the day: it returns in every case; on a trading day
    it calls the task once, whatever the task does; otherwise not at all. *)
Lemma _safe_run_task_cases self task now w :
  _task_callback self = Some task ->
  exists verdict tr,
    is_trading_day self now None = Returns verdict /\
    _safe_run_task self now w
      = (Returns tt, if verdict then (task w).2 else w, tr) /\
    task_calls tr = (if verdict then 1 else 0)%nat /\
    polls tr = 0%nat.
Proof.
  intros Htask. unfold _safe_run_task. rewrite Htask.
  destruct (is_trading_day_returns self now None) as [verdict ->].
  exists verdict. destruct verdict.
  - destruct (task w) as [[[] | e] w']; cbn; eauto.
  - eauto.
Qed.

(** The due jobs of one poll. *)
Lemma run_pending_cases self task now due w :
  _task_callback self = Some task ->
  exists verdict w' tr,
    is_trading_day self now None = Returns verdict /\
    run_pending self now due w = (Returns tt, w', tr) /\
    task_calls tr = (if verdict then due else 0)%nat /\
    polls tr = 0%nat.
Proof.
  intros Htask. revert w. induction due as [| due IH]; intros w.
  - destruct (is_trading_day_returns self now None) as [verdict Hday].
    exists verdict, w, []. cbn. by destruct verdict.
  - destruct (_safe_run_task_cases self task now w Htask)
      as (verdict & tr1 & Hday & Hsafe & Hcalls1 & Hpolls1).
    destruct (IH (if verdict then (task w).2 else w))
      as (verdict' & w' & tr2 & Hday' & Hrest & Hcalls2 & Hpolls2).
    rewrite Hday in Hday'. injection Hday' as <-.
    exists verdict, w', (tr1 ++ tr2). cbn [run_pending].
    rewrite Hsafe, Hrest, task_calls_app, polls_app, Hcalls1, Hcalls2,
      Hpolls1, Hpolls2.
    by destruct verdict.
Qed.

(** The loop over its ticks: it never crashes; while the loop test holds it
    polls at every tick, and the task is called for every due job of a
    trading day. *)
Lemma loop_cases self task ticks :
  _task_callback self = Some task ->
  forall last_heartbeat_minute w,
    exists status w' tr,
      loop self ticks last_heartbeat_minute w = (status, w', tr) /\
      (forall e, status <> Crashed e) /\
      (Forall (fun tick => live tick = true) ticks ->
       status = Polling /\
       polls tr = length ticks /\
       task_calls tr = calls_due self ticks).
Proof.
  intros Htask. induction ticks as [| tick rest IH]; intros last w.
  - exists Polling, w, []. cbn. repeat split; done.
  - cbn [loop]. destruct (live tick) eqn:Hlive.
    + destruct (run_pending_cases self task (tick_now tick) (due tick) w Htask)
        as (verdict & w1 & tr1 & Hday & -> & Hcalls1 & Hpolls1).
      set (beat := (minute (tick_now tick) =? 0)
                   && negb (minute (tick_now tick) =? last)).
      destruct (IH (if beat then minute (tick_now tick) else last) w1)
        as (status & w2 & tr2 & -> & Hsafe & Hlive_rest).
      eexists _, _, _. split; [reflexivity|]. split; [done|].
      intros Hall. apply Forall_cons in Hall as [_ Hall].
      destruct (Hlive_rest Hall) as (-> & Hpolls2 & Hcalls2).
      split; [done|].
      change (RunPending :: tr1 ++ (if beat then [LogHeartbeat] else [])
                ++ Sleep30 :: tr2)
        with ([RunPending] ++ tr1 ++ (if beat then [LogHeartbeat] else [])
                ++ [Sleep30] ++ tr2).
      rewrite !polls_app, !task_calls_app, Hpolls1, Hpolls2, Hcalls1, Hcalls2.
      cbn [calls_due]. rewrite Hday.
      destruct beat, verdict; cbn; split; lia.
    + eexists _, _, _. split; [reflexivity|]. split; [done|].
      intros Hall. apply Forall_cons in Hall as [Hl _]. congruence.
Qed.

(** C9. For a registered task: on a trading day the safe runner calls the
    task, exactly once, and returns normally whatever the task did, also
    when it raised; on a non-trading day it does not call the task and
    leaves the world as it was. So no exception of the task leaves the run
    loop: [run] never crashes, and as long as the loop test holds it polls
    at every tick and the task is called once for every due job of a
    trading day, however the earlier calls ended. *)
Theorem task_failure_never_stops_the_loop self task :
  _task_callback self = Some task ->
  (forall now w, is_trading_day self now None = Returns true ->
     exists tr,
       _safe_run_task self now w = (Returns tt, (task w).2, tr) /\
       task_calls tr = 1%nat) /\
  (forall now w, is_trading_day self now None = Returns false ->
     _safe_run_task self now w = (Returns tt, w, [LogNonTradingDay]) /\
     task_calls [LogNonTradingDay] = 0%nat) /\
  (forall now ticks w e, (run self now ticks w).1.1 <> Crashed e) /\
  (forall now ticks w,
     Forall (fun tick => live tick = true) ticks ->
     (run self now ticks w).1.1 = Polling /\
     polls (run self now ticks w).2 = length ticks /\
     task_calls (run self now ticks w).2 = calls_due self ticks).
Proof.
  intros Htask. split; [|split; [|split]].
  - intros now w Hday.
    destruct (_safe_run_task_cases self task now w Htask)
      as (verdict & tr & Hday' & Hsafe & Hcalls & _).
    rewrite Hday in Hday'. injection Hday' as <-. eauto.
  - intros now w Hday. unfold _safe_run_task. by rewrite Htask, Hday.
  - intros now ticks w e. unfold run.
    destruct (is_trading_day_returns self now None) as [today ->].
    destruct (loop_cases self task ticks Htask (-1) w)
      as (status & w' & tr & -> & Hsafe & _).
    cbn. apply Hsafe.
  - intros now ticks w Hall. unfold run.
    destruct (is_trading_day_returns self now None) as [today ->].
    destruct (loop_cases self task ticks Htask (-1) w)
      as (status & w' & tr & -> & _ & Hlive).
    destruct (Hlive Hall) as (-> & Hpolls & Hcalls).
    cbn [fst snd]. split; [done|].
    change (LogStarted today :: tr) with ([LogStarted today] ++ tr).
    rewrite polls_app, task_calls_app. done.
Qed.

(** ** Further properties of the scheduler *)

Lemma heartbeats_app (tr1 tr2 : list Event) :
  heartbeats (tr1 ++ tr2) = (heartbeats tr1 + heartbeats tr2)%nat.
Proof. unfold heartbeats. by rewrite List.filter_app, length_app. Qed.

Lemma weekday_add_weeks now k :
  weekday (now + k * (7 * us_per_day)) = weekday now.
Proof.
  unfold weekday, date_weekday, date_of.
  replace (now + k * (7 * us_per_day)) with (now + (7 * k) * us_per_day) by lia.
  rewrite Z.div_add by (unfold us_per_day, us_per_second; lia).
  replace (now / us_per_day + 7 * k + 1 + 6)
    with (now / us_per_day + 1 + 6 + k * 7) by lia.
  by rewrite Z.mod_add by lia.
Qed.

(** X17. In simple mode [is_trading_day] is the weekday rule and nothing
    else: it returns [True] exactly for Monday to Friday, it never asks the
    holiday calendar (so a calendar that fails is of no consequence), and
    the verdict repeats every seven days. *)
Theorem is_trading_day_simple self now date :
  holiday_detection self = "simple"%string ->
  exists verdict,
    is_trading_day self now date = Returns verdict /\
    (verdict = true <-> 0 <= weekday (default now date) <= 4) /\
    (verdict = false <-> 5 <= weekday (default now date) <= 6) /\
    forall k,
      is_trading_day self now (Some (default now date + k * (7 * us_per_day)))
      = Returns verdict.
Proof.
  intros Hmode. unfold is_trading_day. rewrite Hmode. cbn.
  replace (match date with Some d => d | None => now end)
    with (default now date) by (by destruct date).
  pose proof (weekday_range (default now date)) as Hrange.
  eexists. split; [done|]. split_and!.
  - rewrite Z.ltb_lt. lia.
  - rewrite Z.ltb_ge. lia.
  - intros k. by rewrite weekday_add_weeks.
Qed.

(** The safe runner of any scheduler, with or without a task: it returns,
    and logs neither a poll nor a heartbeat. *)
Lemma _safe_run_task_quiet self now w :
  exists w' tr,
    _safe_run_task self now w = (Returns tt, w', tr) /\
    polls tr = 0%nat /\ heartbeats tr = 0%nat.
Proof.
  unfold _safe_run_task.
  destruct (_task_callback self) as [task|]; [|by eauto].
  destruct (is_trading_day_returns self now None) as [verdict ->].
  destruct verdict; [|by eauto].
  destruct (task w) as [[[] | e] w']; cbn; eauto.
Qed.

Lemma run_pending_quiet self now due w :
  exists w' tr,
    run_pending self now due w = (Returns tt, w', tr) /\
    polls tr = 0%nat /\ heartbeats tr = 0%nat.
Proof.
  revert w. induction due as [| due IH]; intros w; [by eauto|].
  destruct (_safe_run_task_quiet self now w) as (w1 & tr1 & Hsafe & Hp1 & Hh1).
  destruct (IH w1) as (w2 & tr2 & Hrest & Hp2 & Hh2).
  exists w2, (tr1 ++ tr2). cbn [run_pending].
  by rewrite Hsafe, Hrest, polls_app, heartbeats_app, Hp1, Hp2, Hh1, Hh2.
Qed.

(** Without a task the due jobs do nothing at all. *)
Lemma run_pending_no_task self now due w :
  _task_callback self = None ->
  run_pending self now due w = (Returns tt, w, []).
Proof.
  intros Hnone. induction due as [| due IH]; [done|].
  cbn [run_pending]. unfold _safe_run_task at 1. by rewrite Hnone, IH.
Qed.

Lemma after_calls_succ task n w :
  after_calls task (S n) w = after_calls task n (task w).2.
Proof. unfold after_calls. by rewrite Nat.iter_succ_r. Qed.

Lemma after_calls_add task n m w :
  after_calls task (n + m) w = after_calls task m (after_calls task n w).
Proof.
  unfold after_calls. by rewrite Nat.add_comm, Nat.iter_add.
Qed.

(** The world after the due jobs of one poll. *)
Lemma run_pending_world self task now due w :
  _task_callback self = Some task ->
  exists verdict,
    is_trading_day self now None = Returns verdict /\
    (run_pending self now due w).1.2
      = after_calls task (if verdict then due else 0%nat) w.
Proof.
  intros Htask.
  destruct (is_trading_day_returns self now None) as [verdict Hday].
  exists verdict. split; [done|]. revert w.
  induction due as [| due IH]; intros w; [by destruct verdict|].
  destruct (_safe_run_task_cases self task now w Htask)
    as (verdict' & tr1 & Hday' & Hsafe & _).
  rewrite Hday in Hday'. injection Hday' as <-.
  cbn [run_pending]. rewrite Hsafe.
  specialize (IH (if verdict then (task w).2 else w)).
  destruct (run_pending self now due _) as [[result2 w2] tr2].
  cbn in IH |- *. rewrite IH.
  destruct verdict; [by rewrite after_calls_succ | done].
Qed.

(** Without a calendar every trading-day check is the weekday rule. *)
Lemma weekday_rule_without_calendar self now date :
  _chinese_calendar self = None ->
  is_trading_day self now date = Returns (weekday (default now date) <? 5).
Proof.
  intros Hnone. unfold is_trading_day. rewrite Hnone.
  destruct (String.eqb _ _); by destruct date.
Qed.

(** What [__init__] builds when [schedule] is there and no calendar comes
    into use. *)
Lemma init_weekday_scheduler import_chinese_calendar
    (points : list string) (mode : string) :
  String.eqb mode "advanced" = false \/ import_chinese_calendar = None ->
  exists self : t World,
    init true import_chinese_calendar points mode = Returns self /\
    _chinese_calendar self = None /\
    time_points self = points /\ jobs self = [].
Proof.
  intros Hplain. unfold init. cbn [negb].
  destruct (String.eqb mode "advanced") eqn:Hmode.
  - destruct Hplain as [? | ->]; [discriminate|]. eauto.
  - eauto.
Qed.

(** With [schedule] there, [__init__] returns a scheduler with the time
    points given and no job. *)
Lemma init_time_points import_chinese_calendar
    (points : list string) (mode : string) :
  exists self : t World,
    init true import_chinese_calendar points mode = Returns self /\
    time_points self = points /\ jobs self = [].
Proof.
  unfold init. cbn [negb].
  destruct (String.eqb mode "advanced");
    [destruct import_chinese_calendar|]; eauto.
Qed.

(** Time points the library accepts are all registered, in their order. *)
Lemma register_jobs_accepts schedule_at points :
  (forall point, point ∈ points -> schedule_at point = Returns tt) ->
  forall registered,
    register_jobs schedule_at points registered
    = (Returns tt, registered ++ points).
Proof.
  induction points as [| point rest IH]; intros Hok registered;
    cbn [register_jobs].
  - by rewrite app_nil_r.
  - rewrite (Hok point) by apply list_elem_of_here.
    rewrite IH by (intros p Hp; apply Hok; by apply list_elem_of_further).
    by rewrite <- app_assoc.
Qed.

(** Registration ends at the first time point the library rejects. *)
Lemma register_jobs_rejects schedule_at before bad after e :
  (forall point, point ∈ before -> schedule_at point = Returns tt) ->
  schedule_at bad = Raises e ->
  forall registered,
    register_jobs schedule_at (before ++ bad :: after) registered
    = (Raises e, registered ++ before).
Proof.
  intros Hok Hbad. induction before as [| point rest IH]; intros registered;
    cbn [register_jobs app].
  - by rewrite Hbad, app_nil_r.
  - rewrite (Hok point) by apply list_elem_of_here.
    rewrite IH by (intros p Hp; apply Hok; by apply list_elem_of_further).
    by rewrite <- app_assoc.
Qed.

(** The world after the loop, while its test holds. *)
Lemma loop_world self task ticks :
  _task_callback self = Some task ->
  Forall (fun tick => live tick = true) ticks ->
  forall last w,
    (loop self ticks last w).1.2 = after_calls task (calls_due self ticks) w.
Proof.
  intros Htask Hall.
  induction Hall as [| tick rest Hlive _ IH]; intros last w; [done|].
  cbn [loop calls_due]. rewrite Hlive.
  destruct (run_pending_world self task (tick_now tick) (due tick) w Htask)
    as (verdict & -> & Hworld).
  destruct (run_pending_cases self task (tick_now tick) (due tick) w Htask)
    as (verdict' & w1 & tr1 & _ & Hpending & _).
  rewrite Hpending in Hworld |- *. cbn in Hworld. subst w1.
  match goal with |- context [loop self rest ?l ?w'] =>
    specialize (IH l w'); destruct (loop self rest l w') as [[status w2] tr2]
  end.
  cbn in IH |- *. rewrite IH, after_calls_add. by destruct verdict.
Qed.


(** X19. Without a registered task the run loop does nothing to the world
    and calls nothing, on whatever days its ticks fall; it does not crash
    either. *)
Theorem run_without_task_does_nothing self now ticks w :
  _task_callback self = None ->
  (run self now ticks w).1.2 = w /\
  task_calls (run self now ticks w).2 = 0%nat /\
  forall e, (run self now ticks w).1.1 <> Crashed e.
Proof.
  intros Hnone. unfold run.
  destruct (is_trading_day_returns self now None) as [today ->].
  assert (forall last,
            (loop self ticks last w).1.2 = w /\
            task_calls (loop self ticks last w).2 = 0%nat /\
            forall e, (loop self ticks last w).1.1 <> Crashed e) as Hloop.
  { induction ticks as [| tick rest IH]; intros last; [done|].
    cbn [loop]. destruct (live tick); [|done].
    rewrite (run_pending_no_task _ _ _ _ Hnone).
    match goal with |- context [loop self rest ?l w] =>
      specialize (IH l); destruct (loop self rest l w) as [[status w2] tr2]
    end.
    cbn [fst snd] in IH. cbv beta iota zeta. cbn [fst snd app].
    destruct IH as (-> & Hcalls & Hsafe).
    split_and!; [done | | done].
    match goal with |- context [RunPending :: ?a ++ Sleep30 :: tr2] =>
      change (RunPending :: a ++ Sleep30 :: tr2)
        with ([RunPending] ++ a ++ [Sleep30] ++ tr2)
    end.
    rewrite !task_calls_app, Hcalls.
    by destruct (_ && _). }
  specialize (Hloop (-1)).
  destruct (loop self ticks (-1) w) as [[status w'] tr]. cbn [fst snd] in Hloop |- *.
  destruct Hloop as (-> & Hcalls & Hsafe). by split_and!.
Qed.

(** The heartbeat in the loop: none once the last heartbeat minute is 0,
    and at most one before. *)
Lemma loop_heartbeats self ticks :
  forall last w,
    (heartbeats (loop self ticks last w).2
     <= if (last =? 0)%Z then 0 else 1)%nat.
Proof.
  induction ticks as [| tick rest IH]; intros last w.
  - cbn. destruct (last =? 0); lia.
  - cbn [loop]. destruct (live tick); [|cbn; destruct (last =? 0); lia].
    destruct (run_pending_quiet self (tick_now tick) (due tick) w)
      as (w1 & tr1 & -> & _ & Hquiet).
    cbv beta iota zeta.
    set (beat := (minute (tick_now tick) =? 0)
                 && negb (minute (tick_now tick) =? last)).
    specialize (IH (if beat then minute (tick_now tick) else last) w1).
    destruct (loop self rest _ w1) as [[status w2] tr2].
    cbn [fst snd] in IH |- *.
    change (RunPending :: tr1 ++ (if beat then [LogHeartbeat] else [])
              ++ Sleep30 :: tr2)
      with ([RunPending] ++ tr1 ++ (if beat then [LogHeartbeat] else [])
              ++ [Sleep30] ++ tr2).
    rewrite !heartbeats_app, Hquiet.
    change (heartbeats [RunPending]) with 0%nat.
    change (heartbeats [Sleep30]) with 0%nat.
    subst beat.
    destruct (Z.eqb_spec (minute (tick_now tick)) 0) as [Hminute | Hminute].
    + rewrite Hminute in IH |- *.
      destruct (Z.eqb_spec last 0) as [-> | Hlast].
      * change (0 =? 0) with true in IH |- *. cbn [negb andb] in IH |- *.
        change (0 =? 0) with true in IH.
        change (heartbeats []) with 0%nat. cbv beta iota in IH. lia.
      * assert ((0 =? last) = false) as Hne by (apply Z.eqb_neq; lia).
        rewrite Hne in IH |- *.
        cbn [negb andb] in IH |- *. change (0 =? 0) with true in IH.
        change (heartbeats [LogHeartbeat]) with 1%nat. cbv beta iota in IH. lia.
    + cbn [andb] in IH |- *. change (heartbeats []) with 0%nat.
      destruct (last =? 0); lia.
Qed.

(** X20. The heartbeat line is logged at most once in a whole run of the
    loop, however many hours it lasts: after the first heartbeat, at a
    minute 0, the minute remembered is 0 for good and the test never passes
    again. *)
Theorem heartbeat_at_most_once self now ticks w :
  (heartbeats (run self now ticks w).2 <= 1)%nat.
Proof.
  unfold run.
  destruct (is_trading_day_returns self now None) as [today ->].
  pose proof (loop_heartbeats self ticks (-1) w) as Hloop.
  destruct (loop self ticks (-1) w) as [[status w'] tr].
  cbn [fst snd] in Hloop |- *.
  change (LogStarted today :: tr) with ([LogStarted today] ++ tr).
  rewrite heartbeats_app. cbn in Hloop |- *. lia.
Qed.

(** The loop up to the first tick at which its test fails. *)
Lemma loop_stops self before tick after :
  Forall (fun t => live t = true) before ->
  live tick = false ->
  forall last w,
    loop self (before ++ tick :: after) last w
      = loop self (before ++ [tick]) last w /\
    (loop self (before ++ tick :: after) last w).1.1 = Stopped /\
    polls (loop self (before ++ tick :: after) last w).2 = length before.
Proof.
  intros Hall Hdead. induction Hall as [| t rest Hlive _ IH]; intros last w.
  - cbn. by rewrite Hdead.
  - cbn [app loop length]. rewrite Hlive.
    destruct (run_pending_quiet self (tick_now t) (due t) w)
      as (w1 & tr1 & -> & Hpolls & _).
    cbv beta iota zeta.
    set (beat := (minute (tick_now t) =? 0)
                 && negb (minute (tick_now t) =? last)).
    destruct (IH (if beat then minute (tick_now t) else last) w1)
      as (-> & Hstatus & Hcount).
    destruct (loop self (rest ++ [tick]) _ w1) as [[status w2] tr2].
    cbn [fst snd] in Hstatus, Hcount |- *. split_and!; [done | done |].
    change (RunPending :: tr1 ++ (if beat then [LogHeartbeat] else [])
              ++ Sleep30 :: tr2)
      with ([RunPending] ++ tr1 ++ (if beat then [LogHeartbeat] else [])
              ++ [Sleep30] ++ tr2).
    rewrite !polls_app, Hpolls, Hcount. by destruct beat.
Qed.

(** X21. The run loop ends at the first tick at which [_running] is false
    or the shutdown was requested: it has polled once per tick before
    that one and not at it, it is stopped, and the ticks after it have no
    part in what happened: no job of theirs runs. *)
Theorem run_stops_at_first_dead_tick self now before tick after w :
  Forall (fun t => live t = true) before ->
  live tick = false ->
  run self now (before ++ tick :: after) w = run self now (before ++ [tick]) w /\
  (run self now (before ++ tick :: after) w).1.1 = Stopped /\
  polls (run self now (before ++ tick :: after) w).2 = length before.
Proof.
  intros Hall Hdead. unfold run.
  destruct (is_trading_day_returns self now None) as [today ->].
  destruct (loop_stops self before tick after Hall Hdead (-1) w)
    as (-> & Hstatus & Hpolls).
  destruct (loop self (before ++ [tick]) (-1) w) as [[status w'] tr].
  cbn [fst snd] in Hstatus, Hpolls |- *. split_and!; [done | done |].
  change (LogStarted today :: tr) with ([LogStarted today] ++ tr).
  by rewrite polls_app, Hpolls.
Qed.

(** X22. [__init__] fails, with [ImportError], exactly when [schedule]
    cannot be imported. The scheduler it returns has the time points given,
    no task, no job, and is not running; it has a holiday calendar exactly
    when the advanced mode was asked for and [chinese_calendar] could be
    imported, and when the mode was asked for and the import failed it is
    in simple mode. A scheduler built without the calendar decides every
    day by the weekday alone. *)
Theorem init_properties import_schedule import_chinese_calendar
    (points : list string) (mode : string) :
  (import_schedule = false ->
   exists e, init (World:=World) import_schedule import_chinese_calendar
                  points mode = Raises e /\
             exn_type e = "ImportError"%string) /\
  (import_schedule = true ->
   exists self : t World,
     init import_schedule import_chinese_calendar points mode = Returns self /\
     time_points self = points /\
     _task_callback self = None /\
     jobs self = [] /\
     _running self = false /\
     _chinese_calendar self
       = (if String.eqb mode "advanced" then import_chinese_calendar else None) /\
     holiday_detection self
       = (if String.eqb mode "advanced"
          then match import_chinese_calendar with
               | Some _ => "advanced"
               | None => "simple"
               end
          else mode)%string /\
     (_chinese_calendar self = None ->
      forall now date,
        is_trading_day self now date
        = Returns (weekday (default now date) <? 5))).
Proof.
  split; intros ->; unfold init; cbn [negb].
  - eauto.
  - destruct (String.eqb mode "advanced") eqn:Hmode;
      [apply String.eqb_eq in Hmode as ->;
       destruct import_chinese_calendar as [calendar|] |];
      eexists; (split; [done|]); split_and!; try done;
      intros _ now date; by rewrite weekday_rule_without_calendar.
Qed.


(** X24. [set_intraday_tasks] when the library accepts every time point of
    the scheduler: the call returns, the task is the callback, one job per
    time point is added after the jobs there were, in the order of the time
    points, and nothing else of the scheduler changes. *)
Theorem set_intraday_tasks_registers_in_order schedule_at
    (self : t World) (task : Task World) :
  (forall point, point ∈ time_points self -> schedule_at point = Returns tt) ->
  exists self' : t World,
    set_intraday_tasks schedule_at self task = (Returns tt, self') /\
    _task_callback self' = Some task /\
    jobs self' = jobs self ++ time_points self /\
    time_points self' = time_points self /\
    holiday_detection self' = holiday_detection self /\
    shutdown_handler self' = shutdown_handler self /\
    _chinese_calendar self' = _chinese_calendar self /\
    _running self' = _running self.
Proof.
  intros Haccepted. unfold set_intraday_tasks.
  rewrite (register_jobs_accepts schedule_at _ Haccepted).
  eexists; split; [reflexivity|]. by split_and!.
Qed.

(** X25. A time point the library rejects: [set_intraday_tasks] raises what
    the library raised, with the task already set as the callback and jobs
    registered for the time points before the rejected one only; and
    [run_with_intraday_schedule] with these time points raises the same
    before the loop starts: no poll, no call of the task, the world
    untouched. *)
Theorem set_intraday_tasks_rejected_time_point schedule_at
    (self : t World) (task : Task World) before bad after e :
  time_points self = before ++ bad :: after ->
  (forall point, point ∈ before -> schedule_at point = Returns tt) ->
  schedule_at bad = Raises e ->
  (exists self' : t World,
     set_intraday_tasks schedule_at self task = (Raises e, self') /\
     _task_callback self' = Some task /\
     jobs self' = jobs self ++ before) /\
  forall import_chinese_calendar mode now ticks w,
    run_with_intraday_schedule schedule_at true import_chinese_calendar task
      (Some (time_points self)) mode now ticks w
    = (Crashed e, w, []).
Proof.
  intros Hpoints Hbefore Hbad. split.
  - unfold set_intraday_tasks.
    rewrite Hpoints, (register_jobs_rejects schedule_at _ _ _ _ Hbefore Hbad).
    eexists; split; [reflexivity|]. by split.
  - intros import_chinese_calendar mode now ticks w.
    unfold run_with_intraday_schedule.
    destruct (init_time_points import_chinese_calendar (time_points self) mode)
      as (fresh & -> & Hfresh & _).
    unfold set_intraday_tasks.
    by rewrite Hfresh, Hpoints,
      (register_jobs_rejects schedule_at _ _ _ _ Hbefore Hbad).
Qed.

End SchedulerFacts.

Section SchedulerWitnesses.
Import IntradayScheduler.

Lemma is_trading_day_advanced_never_raises_witness :
  is_trading_day SchedulerExamples.advanced_scheduler
    SchedulerExamples.saturday None = Returns false /\
  is_trading_day SchedulerExamples.advanced_scheduler
    SchedulerExamples.saturday (Some SchedulerExamples.monday) = Returns true.
Proof.
  split.
  - destruct (is_trading_day_advanced_never_raises
                SchedulerExamples.advanced_scheduler
                SchedulerExamples.saturday None)
      as (verdict & -> & Hfallback & _); [reflexivity|].
    destruct verdict; [|reflexivity].
    destruct (Hfallback SchedulerExamples.broken_calendar
                (Exception "NotImplementedError" "no data for the year"))
      as [Hweekday _]; [reflexivity | reflexivity |].
    specialize (Hweekday eq_refl). vm_compute in Hweekday.
    destruct Hweekday as [_ Hle]. exfalso. apply Hle. reflexivity.
  - destruct (is_trading_day_advanced_never_raises
                SchedulerExamples.advanced_scheduler
                SchedulerExamples.saturday (Some SchedulerExamples.monday))
      as (verdict & -> & Hfallback & _); [reflexivity|].
    destruct (Hfallback SchedulerExamples.broken_calendar
                (Exception "NotImplementedError" "no data for the year"))
      as [_ Hweekday]; [reflexivity | reflexivity |].
    rewrite Hweekday; [reflexivity|]. vm_compute. split; discriminate.
Defined.

(** The example: a task that always raises, over three polls. The loop
    polls three times and the task is called for the three jobs due on the
    two Mondays, not for the job due on the Saturday. *)
Lemma task_failure_never_stops_the_loop_witness :
  (run SchedulerExamples.advanced_scheduler SchedulerExamples.monday
       SchedulerExamples.three_ticks 0%nat).1.1 = Polling /\
  polls (run SchedulerExamples.advanced_scheduler SchedulerExamples.monday
             SchedulerExamples.three_ticks 0%nat).2 = 3%nat /\
  task_calls (run SchedulerExamples.advanced_scheduler SchedulerExamples.monday
                  SchedulerExamples.three_ticks 0%nat).2 = 3%nat.
Proof.
  destruct (task_failure_never_stops_the_loop
              SchedulerExamples.advanced_scheduler SchedulerExamples.failing_task)
    as (_ & _ & _ & Hloop); [reflexivity|].
  apply (Hloop SchedulerExamples.monday SchedulerExamples.three_ticks 0%nat).
  repeat constructor.
Defined.

Lemma is_trading_day_simple_witness :
  exists verdict,
    is_trading_day MoreSchedulerExamples.simple_scheduler
      SchedulerExamples.saturday None = Returns verdict /\
    (verdict = false <-> 5 <= weekday SchedulerExamples.saturday <= 6).
Proof.
  destruct (is_trading_day_simple MoreSchedulerExamples.simple_scheduler
              SchedulerExamples.saturday None)
    as (verdict & Hverdict & _ & Hweekend & _); [reflexivity|].
  exists verdict. split; [exact Hverdict | exact Hweekend].
Defined.


Lemma run_without_task_does_nothing_witness :
  (run MoreSchedulerExamples.idle_scheduler SchedulerExamples.monday
       SchedulerExamples.three_ticks 7%nat).1.2 = 7%nat /\
  task_calls (run MoreSchedulerExamples.idle_scheduler SchedulerExamples.monday
                  SchedulerExamples.three_ticks 7%nat).2 = 0%nat.
Proof.
  destruct (run_without_task_does_nothing MoreSchedulerExamples.idle_scheduler
              SchedulerExamples.monday SchedulerExamples.three_ticks 7%nat)
    as (Hworld & Hcalls & _); [reflexivity|].
  split; [exact Hworld | exact Hcalls].
Defined.

Lemma run_stops_at_first_dead_tick_witness :
  (run MoreSchedulerExamples.simple_scheduler SchedulerExamples.monday
       MoreSchedulerExamples.ticks_with_shutdown 0%nat).1.1 = Stopped /\
  polls (run MoreSchedulerExamples.simple_scheduler SchedulerExamples.monday
             MoreSchedulerExamples.ticks_with_shutdown 0%nat).2 = 2%nat.
Proof.
  destruct (run_stops_at_first_dead_tick MoreSchedulerExamples.simple_scheduler
              SchedulerExamples.monday
              [mkTick SchedulerExamples.monday true false 1;
               mkTick SchedulerExamples.monday true false 2]
              (mkTick SchedulerExamples.monday true true 1)
              [mkTick SchedulerExamples.monday true false 3] 0%nat)
    as (_ & Hstatus & Hpolls).
  - repeat constructor.
  - reflexivity.
  - split; [exact Hstatus | exact Hpolls].
Defined.

Lemma init_properties_witness :
  exists self : t nat,
    init true None ["09:30"%string] "advanced" = Returns self /\
    holiday_detection self = "simple"%string /\
    _chinese_calendar self = None.
Proof.
  destruct (init_properties (World:=nat) true None ["09:30"%string] "advanced")
    as [_ Hok].
  destruct (Hok eq_refl) as (self & Hinit & _ & _ & _ & _ & Hcal & Hmode & _).
  exists self. split; [exact Hinit|]. split; [exact Hmode | exact Hcal].
Defined.


(** The example: the three time points of the advanced scheduler are
    accepted and come after the jobs there were. *)
Lemma set_intraday_tasks_registers_in_order_witness :
  exists self' : t nat,
    set_intraday_tasks MoreSchedulerExamples.schedule_at
      SchedulerExamples.advanced_scheduler SchedulerExamples.failing_task
    = (Returns tt, self') /\
    jobs self'
    = jobs SchedulerExamples.advanced_scheduler
      ++ ["09:30"; "13:00"; "14:45"]%string.
Proof.
  destruct (set_intraday_tasks_registers_in_order
              MoreSchedulerExamples.schedule_at
              SchedulerExamples.advanced_scheduler
              SchedulerExamples.failing_task)
    as (self' & Hset & _ & Hjobs & _).
  - intros point Hpoint. cbn [time_points SchedulerExamples.advanced_scheduler]
      in Hpoint.
    repeat (apply elem_of_cons in Hpoint as [-> | Hpoint];
            [reflexivity|]).
    by apply not_elem_of_nil in Hpoint.
  - exists self'. split; [exact Hset | exact Hjobs].
Defined.

(** The example: the second of three time points lacks its colon. *)
Lemma set_intraday_tasks_rejected_time_point_witness :
  run_with_intraday_schedule MoreSchedulerExamples.schedule_at true None
    SchedulerExamples.failing_task
    (Some ["09:30"; "1300"; "14:45"]%string)
    "simple" SchedulerExamples.monday SchedulerExamples.three_ticks 0%nat
  = (Crashed (Exception "ScheduleValueError" "Invalid time format"),
     0%nat, []).
Proof.
  destruct (set_intraday_tasks_rejected_time_point
              MoreSchedulerExamples.schedule_at
              MoreSchedulerExamples.rejected_scheduler
              SchedulerExamples.failing_task
              ["09:30"%string] "1300"%string ["14:45"%string]
              (Exception "ScheduleValueError" "Invalid time format"))
    as [_ Hrun].
  - reflexivity.
  - intros point Hpoint.
    apply elem_of_cons in Hpoint as [-> | Hpoint]; [reflexivity|].
    by apply not_elem_of_nil in Hpoint.
  - reflexivity.
  - exact (Hrun None "simple"%string SchedulerExamples.monday
             SchedulerExamples.three_ticks 0%nat).
Defined.

End SchedulerWitnesses.
